(** * A model of [scraper.py]: the class [EcommerceScraper]

    The Python module fetches catalogue pages with [aiohttp], extracts
    product listings with [BeautifulSoup] and exports them with [pandas].
    Those libraries, the network, the clock and the random generator are not
    part of the module: they are gathered in the class [Environment] below
    and every function of the module is written against it.

    Conventions.
    - A Python [int] is a [Z]; a Python [str] is a Rocq [string] holding its
      UTF-8 bytes ([py_len] counts code points, as [len] does).
    - A call that may raise returns a [result]; [Raise e] carries [str(e)].
    - The object [self] is the record [scraper].  Besides its Python
      attributes it holds [trace], the chronological list of the effects the
      methods perform on the outside world (requests, sleeps, log lines) and
      of the calls of [fetch_page] and [parse_page]. *)

From Stdlib Require Import ZArith QArith Qround String Ascii List Lia Permutation Sorted.
From stdpp Require Import base tactics option list list_numbers strings pretty gmap.

Local Open Scope string_scope.
Local Open Scope Z_scope.

(** ** Python values and exceptions *)

Inductive result (A : Type) : Type :=
| Ok (a : A)
| Raise (e : string).
Arguments Ok {A} a.
Arguments Raise {A} e.

#[export] Instance result_ret : MRet result := λ A a, Ok a.
#[export] Instance result_bind : MBind result := λ A B k r,
  match r with
  | Ok a => k a
  | Raise e => Raise e
  end.

(** [str(n)] for a Python [int]. *)
Definition str_of_int (n : Z) : string := pretty n.

(** [str(b)] for a Python [bool]. *)
Definition str_of_bool (b : bool) : string := if b then "True" else "False".

(** A byte that starts a code point in UTF-8 (not of the form 10xxxxxx). *)
Definition utf8_lead (c : ascii) : bool :=
  let n := nat_of_ascii c in (n <? 128)%nat || (192 <=? n)%nat.

(** [len(s)]: the number of code points. *)
Fixpoint py_len (s : string) : Z :=
  match s with
  | EmptyString => 0
  | String c s' => (if utf8_lead c then 1 else 0) + py_len s'
  end.

(** [s[:n]] for [n >= 0]: the first [n] code points. *)
Fixpoint py_take (n : nat) (s : string) : string :=
  match s with
  | EmptyString => EmptyString
  | String c s' =>
      if utf8_lead c then
        match n with
        | O => EmptyString
        | S n' => String c (py_take n' s')
        end
      else String c (py_take n s')
  end.

(** [s.startswith(p)]. *)
Fixpoint startswith (p s : string) : bool :=
  match p, s with
  | EmptyString, _ => true
  | String a p', String b s' => if Ascii.eqb a b then startswith p' s' else false
  | String _ _, EmptyString => false
  end.

(** [sub in s]. *)
Fixpoint contains (sub s : string) : bool :=
  startswith sub s ||
  match s with
  | EmptyString => false
  | String _ s' => contains sub s'
  end.

(** [s.replace(old, "")] for a non-empty [old]: occurrences are removed from
    left to right and do not overlap.  [skip] counts the bytes of the
    occurrence under the cursor that are still to be dropped.  (The module
    only calls [replace] with a literal [old] and the empty replacement.) *)
Fixpoint remove_from (old : string) (skip : nat) (s : string) : string :=
  match s with
  | EmptyString => EmptyString
  | String c s' =>
      match skip with
      | S k => remove_from old k s'
      | O =>
          if startswith old s then remove_from old (Nat.pred (String.length old)) s'
          else String c (remove_from old O s')
      end
  end.

Definition remove_all (old s : string) : string := remove_from old O s.

(** [chr(n).isspace()] for the code point [n]: the characters that
    [str.strip()] removes. *)
Definition is_space (n : Z) : bool :=
  (9 <=? n) && (n <=? 13) || (28 <=? n) && (n <=? 32)
  || (n =? 0x85) || (n =? 0xA0) || (n =? 0x1680)
  || (0x2000 <=? n) && (n <=? 0x200A)
  || (n =? 0x2028) || (n =? 0x2029) || (n =? 0x202F) || (n =? 0x205F) || (n =? 0x3000).

Definition byte (c : ascii) : Z := Z.of_nat (nat_of_ascii c).

(** The code point a sequence of one, two or three bytes encodes in UTF-8
    ([-1] when the bytes are no such sequence). *)
Definition code_point1 (c : ascii) : Z :=
  if byte c <? 128 then byte c else -1.

Definition code_point2 (c d : ascii) : Z :=
  if (192 <=? byte c) && (byte c <? 224) && negb (utf8_lead d)
  then (byte c - 192) * 64 + (byte d - 128) else -1.

Definition code_point3 (c d e : ascii) : Z :=
  if (224 <=? byte c) && (byte c <? 240) && negb (utf8_lead d) && negb (utf8_lead e)
  then (byte c - 224) * 4096 + (byte d - 128) * 64 + (byte e - 128) else -1.

(** [s.lstrip()]: the characters of [is_space] at the head are dropped (none
    of them takes more than three bytes). *)
Fixpoint lstrip (s : string) : string :=
  match s with
  | EmptyString => EmptyString
  | String c s1 =>
      if is_space (code_point1 c) then lstrip s1
      else
        match s1 with
        | EmptyString => s
        | String d s2 =>
            if is_space (code_point2 c d) then lstrip s2
            else
              match s2 with
              | EmptyString => s
              | String e s3 => if is_space (code_point3 c d e) then lstrip s3 else s
              end
        end
  end.

(** [s.rstrip()]: the longest end of [s] made of characters of [is_space]
    is dropped. *)
Fixpoint rstrip (s : string) : string :=
  match s with
  | EmptyString => EmptyString
  | String c s' =>
      match lstrip s with
      | EmptyString => EmptyString
      | _ => String c (rstrip s')
      end
  end.

Definition strip (s : string) : string := rstrip (lstrip s).

(** Truth value of a [str]: non-empty. *)
Definition truthy (s : string) : bool :=
  match s with
  | EmptyString => false
  | String _ _ => true
  end.

(** ** Data model *)

(** One row of [self.results]: the dict built in [parse_page], with a field
    per key.  [F] is the type of Python floats. *)
Record product_record (F : Type) : Type := Product {
  product_name : string;        (* 'Product Name' *)
  product_price : F;            (* 'Price (£)' *)
  product_rating : Z;           (* 'Rating (1-5)' *)
  in_stock : bool;              (* 'In Stock' *)
  availability_text : string;   (* 'Availability text' *)
  image_url : string;           (* 'Image URL' *)
  product_url : string;         (* 'Product URL' *)
  scraped_from_page : Z         (* 'Scraped from page' *)
}.
Arguments Product {F}.
Arguments product_name {F}.
Arguments product_price {F}.
Arguments product_rating {F}.
Arguments in_stock {F}.
Arguments availability_text {F}.
Arguments image_url {F}.
Arguments product_url {F}.
Arguments scraped_from_page {F}.

(** One row of [self.errors]: [{'page': ..., 'error': ...}]. *)
Record error_record : Type := ErrorRecord {
  error_page : Z;
  error_text : string
}.

(** What one [session.get] attempt of [fetch_page] ends in.  [Response]
    is a response whose status was read and, when the status is 200, whose
    body [await response.text()] returned; the two other cases are the two
    [except] clauses, which also cover a fault while the body is read. *)
Inductive attempt_result : Type :=
| Response (status : Z) (text : string)
| TimeoutError
| OtherError (e : string).

(** An [article.product_pod] element, by what [parse_page] reads from it.
    Each access may raise ([AttributeError] on a missing node, [KeyError] on
    a missing attribute). *)
Record listing : Type := Listing {
  h3_a_title : result string;            (* product.h3.a['title'] *)
  price_color_text : result string;      (* product.select_one('.price_color').text *)
  star_rating_class : result (list string); (* product.select_one('.star-rating')['class'] *)
  instock_availability_text : result string; (* product.select_one('.instock.availability').text *)
  img_src : result string;               (* product.select_one('img')['src'] *)
  h3_a_href : result string              (* product.h3.a['href'] *)
}.

(** The part of [parse_page] that the outer [try] covers and the inner one
    does not: building the soup, selecting the listings and stepping through
    them.  A fault there is [IterRaise]; at the head of the sequence it is a
    fault of [BeautifulSoup(...)] or of [select]. *)
Inductive product_iter : Type :=
| IterEnd
| IterNext (p : listing) (rest : product_iter)
| IterRaise (e : string).

Inductive level : Type := INFO | WARNING | ERROR.

Inductive fn : Type := Fetch_page | Parse_page.

Inductive event : Type :=
| Call (f : fn) (page_num : Z)
| Get (url : string) (headers : list (string * string)) (timeout : Z)
| Sleep (seconds : Z)
| Log (lvl : level) (msg : string).

(** ** The environment of the module *)

Class Environment : Type := {
  (** Python floats, [float(text)] and [str(x)]. *)
  float : Type;
  float_of_str : string → result float;
  str_of_float : float → string;
  (** [f"{x:.1f}"] of a quotient of the clock. *)
  format_1f : Q → string;
  (** The order in which [sort_values] arranges a float column when it is
      ascending (NaN last). *)
  float_le : float → float → bool;
  (** [BeautifulSoup(html, 'html.parser').select('article.product_pod')]. *)
  select_products : string → product_iter;
  (** What the network answers to the request number [attempt] (0, 1, 2) for
      the page [page_num]. *)
  session_get : Z → Z → attempt_result;
  (** The index [random.choice] draws for that request. *)
  random_choice : Z → Z → nat;
  (** [datetime.now().strftime('%Y%m%d_%H%M%S')] when the export runs. *)
  timestamp : string;
  (** The block [with pd.ExcelWriter(filename, engine='openpyxl') as writer]
      that writes the frame [df] to the sheet and sets the widths: [Ok]
      when the workbook is saved under [filename], else the exception that
      leaves the block (pandas raises OSError for a name in a directory
      that does not exist, openpyxl raises IllegalCharacterError for a cell
      it does not accept). *)
  excel_writer : string → list (product_record float) → result ();
  (** [error_df.to_excel(error_file, index=False)], in the same way. *)
  to_excel : string → list error_record → result ()
}.

(** ** The class [EcommerceScraper] *)

Definition USER_AGENTS : list string :=
  [ "Mozilla/5.0 (X11; Linux x86_64) AppleWebKit/537.36 (KHTML, like Gecko) Chrome/120.0.0.0 Safari/537.36";
    "Mozilla/5.0 (Windows NT 10.0; Win64; x64) AppleWebKit/537.36 (KHTML, like Gecko) Chrome/120.0.0.0 Safari/537.36";
    "Mozilla/5.0 (Macintosh; Intel Mac OS X 10_15_7) AppleWebKit/537.36 (KHTML, like Gecko) Chrome/120.0.0.0 Safari/537.36" ].

Record scraper `{Environment} : Type := Scraper {
  base_url : string;
  max_pages : Z;
  max_concurrent : Z;
  results : list (product_record float);
  errors : list error_record;
  trace : list event
}.
Arguments Scraper {_}.

Section Methods.
Context `{Env : Environment}.

Definition emit (e : event) (self : scraper) : scraper :=
  Scraper (base_url self) (max_pages self) (max_concurrent self)
          (results self) (errors self) (trace self ++ [e]).

Definition logging (lvl : level) (msg : string) (self : scraper) : scraper :=
  emit (Log lvl msg) self.

Definition results_append (p : product_record float) (self : scraper) : scraper :=
  Scraper (base_url self) (max_pages self) (max_concurrent self)
          (results self ++ [p]) (errors self) (trace self).

Definition errors_append (e : error_record) (self : scraper) : scraper :=
  Scraper (base_url self) (max_pages self) (max_concurrent self)
          (results self) (errors self ++ [e]) (trace self).

(** [__init__] *)
Definition init (base_url : string) (max_pages max_concurrent : Z) : scraper :=
  logging INFO ("Scraper Initialized: " +:+ str_of_int max_pages +:+ " pages, max "
                +:+ str_of_int max_concurrent +:+ " concurrent")
          (Scraper base_url max_pages max_concurrent [] [] []).

(** [get_headers], for the request [attempt] of [page_num]. *)
Definition get_headers (page_num attempt : Z) : list (string * string) :=
  [ ("User-Agent", USER_AGENTS !!! (random_choice page_num attempt `mod` length USER_AGENTS)%nat);
    ("Accept", "text/html,application/xhtml+xml,application/xml;q=0.0,*/*;q=0.8");
    ("Accept-Language", "en-US,en;q=0.5") ].

Definition page_url (self : scraper) (page_num : Z) : string :=
  base_url self +:+ "/catalogue/page-" +:+ str_of_int page_num +:+ ".html".

(** The tail of one iteration of the loop of [fetch_page] that did not
    return: [if attempt < 2: await asyncio.sleep(2 ** attempt)]. *)
Definition backoff (attempt : Z) (self : scraper) : scraper :=
  if attempt <? 2 then emit (Sleep (2 ^ attempt)) self else self.

(** The loop [for attempt in range(3)] of [fetch_page] over the attempts
    still to run, followed by the two statements after the loop. *)
Fixpoint fetch_loop (page_num : Z) (attempts : list Z) (self : scraper)
  : option string * scraper :=
  match attempts with
  | [] => (None, errors_append (ErrorRecord page_num "Failed to fetch") self)
  | attempt :: rest =>
      let self := emit (Get (page_url self page_num) (get_headers page_num attempt) 10) self in
      match session_get page_num attempt with
      | Response status text =>
          if status =? 200 then (Some text, self)
          else
            fetch_loop page_num rest
              (backoff attempt
                 (logging WARNING (str_of_int status +:+ " on page " +:+ str_of_int page_num) self))
      | TimeoutError =>
          fetch_loop page_num rest
            (backoff attempt
               (logging WARNING ("Timeout on page " +:+ str_of_int page_num +:+ ", attempt "
                                 +:+ str_of_int (attempt + 1)) self))
      | OtherError e =>
          fetch_loop page_num rest
            (backoff attempt
               (logging ERROR ("Error on page " +:+ str_of_int page_num +:+ ": "
                               +:+ py_take 50 e) self))
      end
  end.

Definition fetch_page (page_num : Z) (self : scraper) : option string * scraper :=
  fetch_loop page_num (seqZ 0 3) (emit (Call Fetch_page page_num) self).

(** The dict literal [rating_map] of [parse_page]. *)
Definition rating_map : gmap string Z :=
  list_to_map [("One", 1); ("Two", 2); ("Three", 3); ("Four", 4); ("Five", 5)].

(** The body of the inner [try] of [parse_page] up to the dict it appends:
    the row of one listing, or the exception the inner [except] catches. *)
Definition parse_product (self : scraper) (page_num : Z) (product : listing)
  : result (product_record float) :=
  title ← h3_a_title product;
  price_text ← price_color_text product;
  price ← float_of_str (strip (remove_all "£" price_text));
  rating_class ← star_rating_class product;
  rating_key ← match rating_class !! 1%nat with
               | Some k => Ok k
               | None => Raise "list index out of range"
               end;
  let rating := default 0 (rating_map !! rating_key) in
  availability ← instock_availability_text product;
  let availability := strip availability in
  let in_stock := contains "In stock" availability in
  img_url ← img_src product;
  let img_url := base_url self +:+ "/" +:+ remove_all "../" img_url in
  product_url ← h3_a_href product;
  let product_url := base_url self +:+ "/catalogue/" +:+ remove_all "../../../" product_url in
  Ok (Product title price rating in_stock availability img_url product_url page_num).

(** The loop [for product in products] of [parse_page]: [Ok] when the loop
    runs to its end, [Raise] when a fault escapes to the outer [except]. *)
Fixpoint parse_loop (page_num : Z) (products : product_iter) (self : scraper)
  : result () * scraper :=
  match products with
  | IterEnd => (Ok (), self)
  | IterRaise e => (Raise e, self)
  | IterNext product rest =>
      match parse_product self page_num product with
      | Ok row => parse_loop page_num rest (results_append row self)
      | Raise e =>
          parse_loop page_num rest
            (logging WARNING ("Failed to parse product on page " +:+ str_of_int page_num
                              +:+ ": " +:+ e) self)
      end
  end.

Definition parse_page (html : string) (page_num : Z) (self : scraper) : scraper :=
  let self := emit (Call Parse_page page_num) self in
  match parse_loop page_num (select_products html) self with
  | (Ok _, self) => self
  | (Raise e, self) =>
      errors_append (ErrorRecord page_num ("Parse error: " +:+ e))
        (logging ERROR ("Parse error at page " +:+ str_of_int page_num +:+ ": " +:+ e) self)
  end.

(** The body of [async with semaphore:] in [scrape_page_wrapper]. *)
Definition scrape_page_wrapper (page : Z) (self : scraper) : scraper :=
  let '(html, self) := fetch_page page self in
  match html with
  | Some html => if truthy html then parse_page html page self else self
  | None => self
  end.

(** *** The event loop of [scrape_all]

    The tasks of [scrape_all] are the coroutines [scrape_page_wrapper()], one
    per page, run by [asyncio.as_completed].  A task first waits for the
    semaphore, then runs the body of [async with semaphore:], then releases.
    The body changes [self.results] and [self.errors] only in its last
    stretch, which has no [await] (after the last attempt of [fetch_page],
    and in [parse_page], which is not a coroutine), so for the collections
    the body is one step, taken when the task completes.  The trace lines of
    one task are kept together accordingly; the order of the lines of
    different tasks in [trace] is the order of completion. *)
Record loop : Type := Loop {
  sem_value : nat;        (* semaphore._value: the free permits *)
  waiting : list Z;       (* pages whose task has not entered the block *)
  in_flight : list Z;     (* pages whose task is inside the block *)
  completed : list Z;     (* pages whose task has left it, in that order *)
  loop_self : scraper
}.

Inductive step : loop → loop → Prop :=
| step_acquire n w1 page w2 fl dn self :
    step (Loop (S n) (w1 ++ page :: w2) fl dn self)
         (Loop n (w1 ++ w2) (page :: fl) dn self)
| step_release n w f1 page f2 dn self :
    step (Loop n w (f1 ++ page :: f2) dn self)
         (Loop (S n) w (f1 ++ f2) (dn ++ [page]) (scrape_page_wrapper page self)).

(** [asyncio.Semaphore(value)]. *)
Definition Semaphore (value : Z) : result nat :=
  if value <? 0 then Raise "Semaphore initial value must be >= 0"
  else Ok (Z.to_nat value).

(** The tasks as [scrape_all] creates them: [range(1, self.max_pages + 1)]. *)
Definition dispatch (permits : nat) (self : scraper) : loop :=
  Loop permits (seqZ 1 (max_pages self)) [] [] self.

Definition idle (l : loop) : Prop := waiting l = [] ∧ in_flight l = [].

(** The statements of [scrape_all] after the [async with] block.  The clock
    readings are rationals: the difference of two floats, like that of two
    rationals, is zero exactly when they are equal, and the division raises
    exactly on a zero divisor. *)
Definition summary (elapsed : Q) (self : scraper) : result () * scraper :=
  let self := logging INFO ("Scraping complete int " +:+ format_1f elapsed +:+ "s") self in
  let self := logging INFO ("Products found: "
                            +:+ str_of_int (Z.of_nat (length (results self)))) self in
  let self := logging INFO ("Errors: " +:+ str_of_int (Z.of_nat (length (errors self)))) self in
  if Qeq_bool elapsed 0 then (Raise "float division by zero", self)
  else
    (Ok (),
     logging INFO ("Speed: "
                   +:+ format_1f (inject_Z (Z.of_nat (length (results self))) / elapsed)
                   +:+ " products/second") self).

(** [scrape_all], with the two readings of [time.time()].  It relates the
    scraper to what a run returns or raises and to the scraper it leaves. *)
Inductive scrape_all (start_time end_time : Q) (self : scraper)
  : result () * scraper → Prop :=
| scrape_all_bad_semaphore e :
    Semaphore (max_concurrent self) = Raise e →
    scrape_all start_time end_time self (Raise e, logging INFO "Starting scrape..." self)
| scrape_all_run permits final :
    Semaphore (max_concurrent self) = Ok permits →
    rtc step (dispatch permits (logging INFO "Starting scrape..." self)) final →
    idle final →
    scrape_all start_time end_time self
      (summary (end_time - start_time)%Q (loop_self final)).

(** *** [export_to_excel] *)

(** [df.sort_values(['Rating (1-5)', 'Price (£)'], ascending=[False, True])]:
    [row_le a b] when the row [a] may stand before the row [b]. *)
Definition row_le (a b : product_record float) : bool :=
  (product_rating b <? product_rating a)
  || ((product_rating a =? product_rating b) && float_le (product_price a) (product_price b)).

(** The sort keeps rows with equal keys in their order (pandas sorts several
    columns with a stable lexsort): each row, from the last to the first, is
    put before the first row it may stand before. *)
Fixpoint insert_row (a : product_record float) (df : list (product_record float))
  : list (product_record float) :=
  match df with
  | [] => [a]
  | b :: df' => if row_le a b then a :: df else b :: insert_row a df'
  end.

Definition sort_values (df : list (product_record float)) : list (product_record float) :=
  foldr insert_row [] df.

(** The columns of the frame, in the order of the keys of the dict. *)
Definition columns : list string :=
  [ "Product Name"; "Price (£)"; "Rating (1-5)"; "In Stock"; "Availability text";
    "Image URL"; "Product URL"; "Scraped from page" ].

(** [df[col].astype(str)] for one row, column by column. *)
Definition astype_str (row : product_record float) : list string :=
  [ product_name row; str_of_float (product_price row); str_of_int (product_rating row);
    str_of_bool (in_stock row); availability_text row; image_url row; product_url row;
    str_of_int (scraped_from_page row) ].

(** The width set for each column:
    [min(max(df[col].astype(str).apply(len).max(), len(col)) + 2, 50)]. *)
Definition column_widths (df : list (product_record float)) : list Z :=
  imap (λ idx col,
          Z.min (Z.max (foldr Z.max 0 ((λ row, py_len (astype_str row !!! idx)) <$> df))
                       (py_len col) + 2) 50)
       columns.

(** A spreadsheet file as [export_to_excel] writes it when the write
    returns.  What a write that raises leaves on the disk is not part of
    the model: it is none of these files. *)
Inductive xlsx : Type :=
| ProductsFile (name sheet : string) (rows : list (product_record float)) (widths : list Z)
| ErrorsFile (name : string) (rows : list error_record).

(** [export_to_excel]: the value returned ([None] for the bare [return]) or
    the exception of a write, which no [try] of the method catches; the
    files written; and the scraper with the log lines added. *)
Definition export_to_excel (filename : string) (self : scraper)
  : result (option string) * list xlsx * scraper :=
  match results self with
  | [] => (Ok None, [], logging WARNING "No data to export" self)
  | _ :: _ =>
      let filename := remove_all ".xlsx" filename +:+ "_" +:+ timestamp +:+ ".xlsx" in
      let df := sort_values (results self) in
      match excel_writer filename df with
      | Raise e => (Raise e, [], self)
      | Ok _ =>
          let products_file := ProductsFile filename "Products" df (column_widths df) in
          let self := logging INFO ("Exported to " +:+ filename) self in
          match errors self with
          | [] => (Ok (Some filename), [products_file], self)
          | _ :: _ =>
              let error_file := "errors_" +:+ timestamp +:+ ".xlsx" in
              match to_excel error_file (errors self) with
              | Raise e => (Raise e, [products_file], self)
              | Ok _ =>
                  (Ok (Some filename),
                   [products_file; ErrorsFile error_file (errors self)],
                   logging WARNING ("Errors exported to " +:+ error_file) self)
              end
          end
      end
  end.

End Methods.

(** ** Reading a run *)

Section Reading.
Context `{Env : Environment}.

(** The events a method added to the trace. *)
Definition added (before after : scraper) : list event :=
  drop (length (trace before)) (trace after).

(** The requests and the sleeps of a trace, in order. *)
Definition is_wire (e : event) : bool :=
  match e with
  | Get _ _ _ | Sleep _ => true
  | Call _ _ | Log _ _ => false
  end.

Definition wire (t : list event) : list event := List.filter is_wire t.

Definition is_get (e : event) : bool :=
  match e with
  | Get _ _ _ => true
  | _ => false
  end.

Definition is_call (f : fn) (page : Z) (e : event) : bool :=
  match e, f with
  | Call Fetch_page q, Fetch_page | Call Parse_page q, Parse_page => q =? page
  | _, _ => false
  end.

(** How many times [f] was called for [page]. *)
Definition calls (f : fn) (page : Z) (t : list event) : nat :=
  length (List.filter (is_call f page) t).

Definition is_warning (e : event) : bool :=
  match e with
  | Log WARNING _ => true
  | _ => false
  end.

(** The rows of the two collections that belong to [page]. *)
Definition errors_of (page : Z) (errs : list error_record) : list error_record :=
  List.filter (λ e, error_page e =? page) errs.

Definition products_of (page : Z) (rows : list (product_record float))
  : list (product_record float) :=
  List.filter (λ r, scraped_from_page r =? page) rows.

(** The body an attempt hands back: the text of a response with status 200. *)
Definition body_of (r : attempt_result) : option string :=
  match r with
  | Response status text => if status =? 200 then Some text else None
  | TimeoutError | OtherError _ => None
  end.

(** The loop of [fetch_page] goes on after an attempt that ended in a
    timeout, in a status other than 200, or in another exception. *)
Definition retried (r : attempt_result) : bool :=
  match r with
  | Response status _ => negb (status =? 200)
  | TimeoutError | OtherError _ => true
  end.

(** The same with the statuses 200..299 all taken as a success. *)
Definition retried_non_2xx (r : attempt_result) : bool :=
  match r with
  | Response status _ => negb ((200 <=? status) && (status <? 300))
  | TimeoutError | OtherError _ => true
  end.

(** The requests and waits of a fetch of [page_num] under a retry rule: no
    wait before attempt 0, [2 ^ 0] before attempt 1, [2 ^ 1] before attempt
    2, nothing after the last attempt made. *)
Definition schedule (retry : attempt_result → bool) (self : scraper) (page_num : Z)
  : list event :=
  let get attempt := Get (page_url self page_num) (get_headers page_num attempt) 10 in
  get 0 ::
  if retry (session_get page_num 0) then
    Sleep (2 ^ 0) :: get 1 ::
    if retry (session_get page_num 1) then [Sleep (2 ^ 1); get 2] else []
  else [].

(** The body of the first attempt with status 200, if one of the three has it. *)
Definition fetched (page_num : Z) : option string :=
  head (omap (λ attempt, body_of (session_get page_num attempt)) (seqZ 0 3)).

(** The outcomes of a fetch as the specification names them, and the value
    of [fetch_page] each stands for: a text is a success, [None] (returned
    only below the loop) is the failure after the last attempt. *)
Inductive failure_reason : Type :=
| Timeout
| HttpError (status : Z)
| NetworkError
| Exhausted.

Inductive FetchOutcome : Type :=
| Success (page_number : Z) (content : string)
| Failure (page_number : Z) (reason : failure_reason).

Definition outcome (page_num : Z) (returned : option string) : FetchOutcome :=
  match returned with
  | Some text => Success page_num text
  | None => Failure page_num Exhausted
  end.

(** The listings of a page whose markup is read to its end. *)
Fixpoint listings (l : list listing) : product_iter :=
  match l with
  | [] => IterEnd
  | p :: l' => IterNext p (listings l')
  end.

(** The listings of a page whose markup faults after [l]. *)
Fixpoint listings_then_raise (l : list listing) (e : string) : product_iter :=
  match l with
  | [] => IterRaise e
  | p :: l' => IterNext p (listings_then_raise l' e)
  end.

(** The listings a sequence yields, and the fault that ends it, if any. *)
Fixpoint yielded (products : product_iter) : list listing :=
  match products with
  | IterEnd | IterRaise _ => []
  | IterNext p rest => p :: yielded rest
  end.

Fixpoint fault_of (products : product_iter) : option string :=
  match products with
  | IterEnd => None
  | IterRaise e => Some e
  | IterNext _ rest => fault_of rest
  end.

Definition well_formed (self : scraper) (page_num : Z) (p : listing) : bool :=
  match parse_product self page_num p with
  | Ok _ => true
  | Raise _ => false
  end.

(** The rows of the listings of [l] that parse. *)
Fixpoint rows_of (self : scraper) (page_num : Z) (l : list listing)
  : list (product_record float) :=
  match l with
  | [] => []
  | p :: l' =>
      match parse_product self page_num p with
      | Ok row => row :: rows_of self page_num l'
      | Raise _ => rows_of self page_num l'
      end
  end.

(** The log lines of the listings of [l] that are skipped. *)
Fixpoint skipped (self : scraper) (page_num : Z) (l : list listing) : list event :=
  match l with
  | [] => []
  | p :: l' =>
      match parse_product self page_num p with
      | Ok _ => skipped self page_num l'
      | Raise e =>
          Log WARNING ("Failed to parse product on page " +:+ str_of_int page_num
                       +:+ ": " +:+ e) :: skipped self page_num l'
      end
  end.

(** The error rows [parse_page] adds for a page whose listings end in [fault]. *)
Definition parse_errors (page_num : Z) (fault : option string) : list error_record :=
  match fault with
  | Some e => [ErrorRecord page_num ("Parse error: " +:+ e)]
  | None => []
  end.

(** What [parse_page] adds for a page with the text [html]: the rows of the
    listings that parse, the error row of a fault, and the trace of the call. *)
Definition parse_delta (self : scraper) (html : string) (page_num : Z) : scraper :=
  let products := select_products html in
  Scraper (base_url self) (max_pages self) (max_concurrent self)
    (rows_of self page_num (yielded products))
    (parse_errors page_num (fault_of products))
    (Call Parse_page page_num :: skipped self page_num (yielded products)
     ++ match fault_of products with
        | Some e => [Log ERROR ("Parse error at page " +:+ str_of_int page_num +:+ ": " +:+ e)]
        | None => []
        end).

(** What the task of a page adds to the two collections, and whether it
    calls [parse_page], by the outcome of its fetch. *)
Definition page_errors (page : Z) : list error_record :=
  match fetched page with
  | None => [ErrorRecord page "Failed to fetch"]
  | Some html =>
      if truthy html then parse_errors page (fault_of (select_products html)) else []
  end.

Definition page_rows (self : scraper) (page : Z) : list (product_record float) :=
  match fetched page with
  | None => []
  | Some html => if truthy html then rows_of self page (yielded (select_products html)) else []
  end.

Definition page_parsed (page : Z) : bool :=
  match fetched page with
  | None => false
  | Some html => truthy html
  end.

Definition page_calls (f : fn) (page : Z) : nat :=
  match f with
  | Fetch_page => 1%nat
  | Parse_page => if page_parsed page then 1%nat else 0%nat
  end.

(** The bodies of the tasks of [pages] run one after the other. *)
Fixpoint run_all (pages : list Z) (self : scraper) : scraper :=
  match pages with
  | [] => self
  | page :: rest => run_all rest (scrape_page_wrapper page self)
  end.

(** A scraper with the attributes of [self] and empty collections, and the
    scraper [self] with the collections of [d] appended. *)
Definition blank (self : scraper) : scraper :=
  Scraper (base_url self) (max_pages self) (max_concurrent self) [] [] [].

Definition extend (self d : scraper) : scraper :=
  Scraper (base_url self) (max_pages self) (max_concurrent self)
          (results self ++ results d) (errors self ++ errors d) (trace self ++ trace d).

(** [a] may stand before [b] in the exported sheet. *)
Definition stands_before (a b : product_record float) : Prop := row_le a b = true.

(** A page "follows the success path" when [parse_page] is called for it,
    and "appears in the error report" when [self.errors] has a row for it. *)
Definition handed_to_parser (page : Z) (self : scraper) : Prop :=
  (0 < calls Parse_page page (trace self))%nat.

Definition in_error_report (page : Z) (self : scraper) : Prop :=
  errors_of page (errors self) ≠ [].

(** The wording "one fetch per page, and each page in exactly one of the
    success path and the error report", of the scraper a run leaves. *)
Definition one_outcome_per_page (pages : Z) (self : scraper) : Prop :=
  ∀ p, 1 ≤ p ≤ pages →
    calls Fetch_page p (trace self) = 1%nat
    ∧ (handed_to_parser p self ∧ ¬ in_error_report p self
       ∨ ¬ handed_to_parser p self ∧ in_error_report p self).

End Reading.

(** ** A shop to run the model on *)

Fixpoint digits (acc : Z) (s : string) : option Z :=
  match s with
  | EmptyString => Some acc
  | String c s' =>
      let n := Z.of_nat (nat_of_ascii c) in
      if (48 <=? n) && (n <=? 57) then digits (10 * acc + (n - 48)) s' else None
  end.

(** The text before the last "/" of a path. *)
Fixpoint dirname (path : string) : string :=
  match path with
  | EmptyString => EmptyString
  | String c path' =>
      if contains "/" path' then String c (dirname path') else EmptyString
  end.

(** A shop with whole prices.  Its working directory holds no directory, so
    that a products file whose name has a "/" cannot be saved. *)
Definition shop (net : Z → Z → attempt_result) (soup : string → product_iter)
  : Environment :=
  {| float := Z;
     float_of_str := λ s,
       match s with
       | EmptyString => Raise "could not convert string to float"
       | _ => match digits 0 s with
              | Some n => Ok n
              | None => Raise "could not convert string to float"
              end
       end;
     str_of_float := λ x, str_of_int x +:+ ".0";
     format_1f := λ q, str_of_int (Qfloor q) +:+ ".0";
     float_le := Z.leb;
     select_products := soup;
     session_get := net;
     random_choice := λ page attempt, Z.to_nat (page + attempt);
     timestamp := "20240301_120000";
     excel_writer := λ filename _,
       if contains "/" filename
       then Raise ("Cannot save file into a non-existent directory: '"
                   +:+ dirname filename +:+ "'")
       else Ok ();
     to_excel := λ _ _, Ok () |}.

Definition book (title price stars : string) : listing :=
  Listing (Ok title) (Ok price) (Ok ["star-rating"; stars]) (Ok "  In stock  ")
          (Ok "../media/cache/cover.jpg") (Ok "../../../book/index.html").

(** A listing without its price node. *)
Definition torn_book : listing :=
  Listing (Ok "Torn") (Raise "'NoneType' object has no attribute 'text'")
          (Ok ["star-rating"; "One"]) (Ok "In stock") (Ok "cover.jpg") (Ok "index.html").

Definition shop_soup (html : string) : product_iter :=
  if String.eqb html "shelf" then
    listings [book "Attic" "£51" "Three"; torn_book; book "Velvet" "£53" "Five"]
  else if String.eqb html "cut" then
    listings_then_raise [book "Attic" "£51" "Three"] "unreadable markup"
  else IterEnd.

(** Page 1 answers at once, page 2 never, page 3 sends an empty body, page 4
    a body cut short, page 5 answers 204 and then 200, page 6 times out and
    then sends an empty body. *)
Definition shop_net (page attempt : Z) : attempt_result :=
  match page with
  | 1 => Response 200 "shelf"
  | 2 => match attempt with
         | 0 => Response 500 "Internal Server Error"
         | 1 => TimeoutError
         | _ => OtherError "Cannot connect to host"
         end
  | 3 => Response 200 ""
  | 4 => Response 200 "cut"
  | 5 => match attempt with
         | 0 => Response 204 ""
         | _ => Response 200 "shelf"
         end
  | 6 => match attempt with
         | 0 => TimeoutError
         | _ => Response 200 ""
         end
  | _ => Response 404 "Not Found"
  end.

Definition bookshop : Environment := shop shop_net shop_soup.

(** A fresh scraper for [bookshop], as [main] builds it. *)
Definition bookshop_scraper : @scraper bookshop := @init bookshop "http://b.com" 4 2.

(** Shops whose only page is page 3 or page 4 of [bookshop]. *)
Definition empty_page_shop : Environment := shop (λ _ _, Response 200 "") shop_soup.
Definition cut_page_shop : Environment := shop (λ _ _, Response 200 "cut") shop_soup.

(** ** [print_summary] and [main] *)

(** What [print_summary] asks of pandas and of float formatting: each field
    is the text one f-string field of the summary expands to. *)
Class Pandas `{Environment} : Type := {
  (** [f"{df['Price (£)'].mean():.2f}"], and the same for [min()], [max()]. *)
  mean_2f : list float → string;
  min_2f : list float → string;
  max_2f : list float → string;
  (** [f"{s/n*100:.1f}"] for the integers [s] and [n]. *)
  share_1f : Z → Z → string;
  (** [f"{df['Rating (1-5)'].mean():.2f}"]. *)
  int_mean_2f : list Z → string;
  (** [str] of a Series of counts indexed by rating, as [print] shows it. *)
  series_repr : list (Z * Z) → string
}.

(** The line feed. *)
Definition nl : string := String "010" EmptyString.

(** [s * n] for a [str] and an [int]. *)
Fixpoint str_mul (s : string) (n : nat) : string :=
  match n with
  | O => EmptyString
  | S n' => s +:+ str_mul s n'
  end.

(** [str(x)] for a value that is a [str] or [None]. *)
Definition str_of_optional (x : option string) : string :=
  match x with
  | Some s => s
  | None => "None"
  end.

(** One more occurrence of [r] in a table of counts kept in the order of
    its keys. *)
Fixpoint count_value (r : Z) (counts : list (Z * Z)) : list (Z * Z) :=
  match counts with
  | [] => [(r, 1)]
  | (k, c) :: counts' =>
      if r <? k then (r, 1) :: counts
      else if r =? k then (k, c + 1) :: counts'
      else (k, c) :: count_value r counts'
  end.

(** [col.value_counts().sort_index()]: how often each value occurs, by
    ascending value. *)
Definition value_counts_sort_index (col : list Z) : list (Z * Z) :=
  foldr count_value [] col.

Section Console.
Context `{Pd : Pandas}.

(** [print_summary]: the arguments of its calls of [print], in order. *)
Definition print_summary (self : scraper) : list string :=
  match results self with
  | [] => ["No data collected"]
  | _ :: _ =>
      let df := results self in
      let price := product_price <$> df in
      let rating := product_rating <$> df in
      let len_df := Z.of_nat (length df) in
      let in_stock_sum := Z.of_nat (length (List.filter in_stock df)) in
      [ nl +:+ str_mul "=" 70;
        "Summary";
        "Total products:        " +:+ str_of_int len_df;
        "Average price:         £" +:+ mean_2f price;
        "Price range:           £" +:+ min_2f price +:+ " - £" +:+ max_2f price;
        "In stock:              " +:+ str_of_int in_stock_sum
          +:+ " (" +:+ share_1f in_stock_sum len_df +:+ "%)";
        "Average rating:        " +:+ int_mean_2f rating +:+ "/5";
        nl +:+ "Rating distribution:";
        series_repr (value_counts_sort_index rating) ]
  end.

(** The namespace [parser.parse_args()] returns; [default_args] is the one
    of a command line without options. *)
Record Namespace : Type := {
  args_pages : Z;
  args_output : string;
  args_concurrent : Z
}.

Definition default_args : Namespace := Build_Namespace 10 "products.xlsx" 5.

(** What a run of [main] leaves: how it ended, the arguments of the calls of
    [print], the spreadsheets of the writes that returned, and the scraper. *)
Record process : Type := Process {
  exit_status : result ();
  stdout : list string;
  files_written : list xlsx;
  scraper_left : scraper
}.

(** [main], after [parse_args]: an exception of [scrape_all] ends it; else
    the summary is printed and the rows are exported; an exception of the
    export ends it too, and else the name returned by the export is
    printed. *)
Inductive main (args : Namespace) (start_time end_time : Q) : process → Prop :=
| main_raised e self :
    scrape_all start_time end_time
      (init "http://books.toscrape.com" (args_pages args) (args_concurrent args))
      (Raise e, self) →
    main args start_time end_time (Process (Raise e) [] [] self)
| main_export_raised e self :
    scrape_all start_time end_time
      (init "http://books.toscrape.com" (args_pages args) (args_concurrent args))
      (Ok (), self) →
    (export_to_excel (args_output args) self).1.1 = Raise e →
    main args start_time end_time
      (Process (Raise e)
         (print_summary self)
         (export_to_excel (args_output args) self).1.2
         (export_to_excel (args_output args) self).2)
| main_returned output_file self :
    scrape_all start_time end_time
      (init "http://books.toscrape.com" (args_pages args) (args_concurrent args))
      (Ok (), self) →
    (export_to_excel (args_output args) self).1.1 = Ok output_file →
    main args start_time end_time
      (Process (Ok ())
         (print_summary self
          ++ ["Saved results to " +:+ str_of_optional output_file +:+ nl])
         (export_to_excel (args_output args) self).1.2
         (export_to_excel (args_output args) self).2).

End Console.

(** The sum of the seconds slept in a trace. *)
Fixpoint slept (t : list event) : Z :=
  match t with
  | [] => 0
  | Sleep seconds :: t' => seconds + slept t'
  | _ :: t' => slept t'
  end.

Definition is_log (e : event) : bool :=
  match e with
  | Log _ _ => true
  | _ => false
  end.

(** The summary figures of a [shop], in whole numbers. *)
Definition shop_pandas (net : Z → Z → attempt_result) (soup : string → product_iter)
  : @Pandas (shop net soup) :=
  @Build_Pandas (shop net soup)
    (λ l : list Z, str_of_int (foldr Z.add 0 l `div` Z.of_nat (length l)) +:+ ".00")
    (λ l : list Z, str_of_int (foldr Z.min (default 0 (head l)) l) +:+ ".00")
    (λ l : list Z, str_of_int (foldr Z.max (default 0 (head l)) l) +:+ ".00")
    (λ s n, str_of_int (s * 100 `div` n) +:+ ".0")
    (λ l, str_of_int (foldr Z.add 0 l `div` Z.of_nat (length l)) +:+ ".00")
    (λ counts,
       foldr (λ kc acc, str_of_int kc.1 +:+ "    " +:+ str_of_int kc.2 +:+ nl +:+ acc)
             "dtype: int64" counts).


(** A shop that never answers. *)
Definition closed_shop : Environment := shop (λ _ _, TimeoutError) shop_soup.
Definition closed_shop_pandas : @Pandas closed_shop :=
  shop_pandas (λ _ _, TimeoutError) shop_soup.

Arguments str_of_int : simpl never.
Arguments py_take : simpl never.
Arguments get_headers : simpl never.
Arguments page_url : simpl never.

(** * Properties *)

(** The cases of [p] against the head and the tail of the list [q :: dn]. *)
Ltac page_cases p q dn :=
  let Heq := fresh "Heq" in
  destruct (decide (p = q)) as [Heq|?];
  [ subst p;
    rewrite (decide_False (P := q ∈ dn)) by done;
    rewrite (decide_True (P := q ∈ q :: dn)) by (apply elem_of_cons; by left)
  | destruct (decide (p ∈ dn));
    [ rewrite (decide_True (P := p ∈ q :: dn)) by (apply elem_of_cons; by right)
    | rewrite (decide_False (P := p ∈ q :: dn))
        by (rewrite elem_of_cons; intros [?|?]; done) ] ].

(** The four ends of one attempt: status 200, another status, a timeout,
    another exception. *)
Ltac attempt_cases page attempt :=
  let status := fresh "status" in
  let Hs := fresh "Hstatus" in
  destruct (session_get page attempt) as [status ?| |?]; simpl;
  [destruct (status =? 200) eqn:Hs; simpl| |].

(** ** The string functions on examples *)

Example strip_ex : strip "  In stock " = "In stock".
Proof. reflexivity. Qed.
(** U+00A0 before the text, U+2003 and a line feed after it; the pound sign
    is no blank. *)
Example strip_unicode_ex :
  strip (String "194" (String "160" ("In stock" +:+ String "226" (String "128" (String "131" nl)))))
  = "In stock"
  ∧ strip " £ " = "£".
Proof. split; reflexivity. Qed.
Example remove_all_ex : remove_all "../" "../../media/a.jpg" = "media/a.jpg".
Proof. reflexivity. Qed.
Example pound_ex : py_len "Price (£)" = 9 ∧ remove_all "£" "£51.77" = "51.77".
Proof. split; reflexivity. Qed.
Example str_of_int_ex : str_of_int 404 = "404" ∧ str_of_int (-3) = "-3".
Proof. split; vm_compute; reflexivity. Qed.

Section Properties.
Context `{Env : Environment}.

(** ** Collections only grow: [extend] *)

Lemma scraper_eq (a b : scraper) :
  base_url a = base_url b → max_pages a = max_pages b →
  max_concurrent a = max_concurrent b → results a = results b →
  errors a = errors b → trace a = trace b → a = b.
Proof. destruct a, b; simpl; intros; subst; reflexivity. Qed.

Lemma extend_blank self : extend self (blank self) = self.
Proof. apply scraper_eq; simpl; auto using app_nil_r. Qed.

Lemma added_extend self d : added self (extend self d) = trace d.
Proof. unfold added; simpl. apply drop_app_length. Qed.

Lemma emit_extend e self d : emit e (extend self d) = extend self (emit e d).
Proof. apply scraper_eq; simpl; auto using app_assoc. Qed.

Lemma logging_extend lvl msg self d :
  logging lvl msg (extend self d) = extend self (logging lvl msg d).
Proof. apply emit_extend. Qed.

Lemma results_append_extend row self d :
  results_append row (extend self d) = extend self (results_append row d).
Proof. apply scraper_eq; simpl; auto using app_assoc. Qed.

Lemma errors_append_extend e self d :
  errors_append e (extend self d) = extend self (errors_append e d).
Proof. apply scraper_eq; simpl; auto using app_assoc. Qed.

Lemma backoff_extend attempt self d :
  backoff attempt (extend self d) = extend self (backoff attempt d).
Proof. unfold backoff. destruct (attempt <? 2); auto using emit_extend. Qed.

Lemma base_url_backoff attempt self : base_url (backoff attempt self) = base_url self.
Proof. unfold backoff. destruct (attempt <? 2); reflexivity. Qed.

Lemma extend_extend self d d' :
  extend (extend self d) d' = extend self (extend d d').
Proof. apply scraper_eq; simpl; auto using app_assoc. Qed.

(** A fetch reads only [base_url] of the scraper: run on a scraper that
    already holds rows, it adds what it adds to an empty one. *)
Lemma fetch_loop_extend page attempts self d :
  base_url d = base_url self →
  fetch_loop page attempts (extend self d)
  = ((fetch_loop page attempts d).1, extend self (fetch_loop page attempts d).2).
Proof.
  revert d. induction attempts as [|attempt rest IH]; intros d Hurl; simpl.
  - by rewrite errors_append_extend.
  - assert (Hpage : page_url (extend self d) page = page_url d page)
      by (unfold page_url; simpl; by rewrite Hurl).
    rewrite Hpage, emit_extend.
    destruct (session_get page attempt) as [status text| |e].
    + destruct (status =? 200); [done|].
      rewrite logging_extend, backoff_extend. apply IH.
      by rewrite base_url_backoff.
    + rewrite logging_extend, backoff_extend. apply IH.
      by rewrite base_url_backoff.
    + rewrite logging_extend, backoff_extend. apply IH.
      by rewrite base_url_backoff.
Qed.

Lemma fetch_page_extend page self :
  fetch_page page self
  = ((fetch_page page (blank self)).1, extend self (fetch_page page (blank self)).2).
Proof.
  unfold fetch_page. rewrite <- (extend_blank self) at 1.
  rewrite emit_extend. by apply fetch_loop_extend.
Qed.

(** ** [fetch_page] *)

Lemma fetched_unfold page :
  fetched page
  = match body_of (session_get page 0) with
    | Some text => Some text
    | None =>
        match body_of (session_get page 1) with
        | Some text => Some text
        | None => body_of (session_get page 2)
        end
    end.
Proof.
  unfold fetched. change (seqZ 0 3) with [0; 1; 2]. simpl.
  destruct (body_of (session_get page 0)); [done|].
  destruct (body_of (session_get page 1)); [done|].
  by destruct (body_of (session_get page 2)).
Qed.

(** What [fetch_page] returns is the body of the first attempt with status 200. *)
Lemma fetch_page_returns page self : (fetch_page page self).1 = fetched page.
Proof.
  rewrite fetch_page_extend, fetched_unfold. simpl.
  unfold fetch_page. change (seqZ 0 3) with [0; 1; 2]. simpl.
  attempt_cases page 0; try done;
    attempt_cases page 1; try done;
    attempt_cases page 2; done.
Qed.

(** C4, as amended: a fetch makes at most three requests; it goes on after
    an attempt exactly when that attempt ended in a timeout, in a status
    other than 200, or in another exception, up to the third attempt; it
    sleeps [2 ^ 0] before attempt 1 and [2 ^ 1] before attempt 2 and at no
    other time; and it returns the body of the first attempt with status
    200, without a further request. *)
Theorem fetch_page_retry_schedule (page : Z) (self : scraper) :
  wire (added self (fetch_page page self).2) = schedule retried self page
  ∧ (length (List.filter is_get (added self (fetch_page page self).2)) ≤ 3)%nat
  ∧ (fetch_page page self).1 = fetched page.
Proof.
  split_and!; [| |apply fetch_page_returns];
    rewrite fetch_page_extend; simpl; rewrite added_extend;
    unfold fetch_page, schedule; change (seqZ 0 3) with [0; 1; 2]; simpl;
    change (page_url (emit _ _) page) with (page_url self page);
    attempt_cases page 0; try done; try lia;
    attempt_cases page 1; try done; try lia;
    attempt_cases page 2; try done; lia.
Qed.

(** C7: when none of the three attempts has status 200, [fetch_page] returns
    [None], the failure after the last attempt, and appends one row for the
    page to [self.errors]; [self.results] is left as it was. *)
Theorem fetch_page_exhausted (page : Z) (self : scraper) :
  (∀ attempt, 0 ≤ attempt < 3 → retried (session_get page attempt) = true) →
  (fetch_page page self).1 = None
  ∧ outcome page (fetch_page page self).1 = Failure page Exhausted
  ∧ errors (fetch_page page self).2
    = (errors self ++ [ErrorRecord page "Failed to fetch"])%list
  ∧ results (fetch_page page self).2 = results self.
Proof.
  intros Hretried.
  assert (H0 := Hretried 0 ltac:(lia)).
  assert (H1 := Hretried 1 ltac:(lia)).
  assert (H2 := Hretried 2 ltac:(lia)).
  rewrite fetch_page_extend. simpl.
  unfold fetch_page. change (seqZ 0 3) with [0; 1; 2]. simpl.
  revert H0 H1 H2. unfold retried.
  attempt_cases page 0; try done; intros _;
    attempt_cases page 1; try done; intros _;
    attempt_cases page 2; try done; intros _;
    by rewrite app_nil_r.
Qed.

(** ** [parse_page] *)

Lemma parse_product_base (a b : scraper) page p :
  base_url a = base_url b → parse_product a page p = parse_product b page p.
Proof. unfold parse_product. by intros ->. Qed.

Lemma rows_of_base (a b : scraper) page l :
  base_url a = base_url b → rows_of a page l = rows_of b page l.
Proof.
  intros Hurl. induction l as [|p l IH]; simpl; [done|].
  by rewrite (parse_product_base a b), IH.
Qed.

Lemma skipped_base (a b : scraper) page l :
  base_url a = base_url b → skipped a page l = skipped b page l.
Proof.
  intros Hurl. induction l as [|p l IH]; simpl; [done|].
  by rewrite (parse_product_base a b), IH.
Qed.

(** The loop over the listings: it adds the rows of the listings that parse
    and a warning for each of the others, and stops at the fault, if any. *)
Lemma parse_loop_spec products page self :
  parse_loop page products self
  = (match fault_of products with
     | Some e => Raise e
     | None => Ok ()
     end,
     extend self
       (Scraper (base_url self) (max_pages self) (max_concurrent self)
          (rows_of self page (yielded products)) []
          (skipped self page (yielded products)))).
Proof.
  revert self. induction products as [|p rest IH|e]; intros self; simpl.
  - f_equal. apply scraper_eq; simpl; auto using app_nil_r.
  - destruct (parse_product self page p) as [row|e] eqn:Hp; rewrite IH; f_equal.
    + rewrite (rows_of_base _ self), (skipped_base _ self) by done.
      apply scraper_eq; simpl; auto. by rewrite <- app_assoc.
    + rewrite (rows_of_base _ self), (skipped_base _ self) by done.
      apply scraper_eq; simpl; auto. by rewrite <- app_assoc.
  - f_equal. apply scraper_eq; simpl; auto using app_nil_r.
Qed.

Lemma parse_page_spec html page self :
  parse_page html page self = extend self (parse_delta self html page).
Proof.
  unfold parse_page, parse_delta. rewrite parse_loop_spec.
  rewrite (rows_of_base _ self), (skipped_base _ self) by done.
  destruct (fault_of (select_products html)) as [e|];
    apply scraper_eq; simpl; auto using app_nil_r;
    repeat rewrite <- app_assoc; by rewrite ?app_nil_r.
Qed.

Lemma rows_of_tagged self page l :
  Forall (λ row, scraped_from_page row = page) (rows_of self page l).
Proof.
  induction l as [|p l IH]; simpl; [constructor|].
  destruct (parse_product self page p) as [row|e] eqn:Hp; [|done].
  constructor; [|done].
  unfold parse_product in Hp.
  destruct (h3_a_title p), (price_color_text p) as [price_text|]; simpl in Hp; try done.
  destruct (float_of_str _), (star_rating_class p) as [cls|]; simpl in Hp; try done.
  destruct (cls !! 1%nat), (instock_availability_text p); simpl in Hp; try done.
  destruct (img_src p), (h3_a_href p); simpl in Hp; try done.
  by injection Hp as <-.
Qed.

Lemma rows_of_length self page l :
  (length (rows_of self page l)
   + length (List.filter (λ p, negb (well_formed self page p)) l) = length l)%nat.
Proof.
  unfold well_formed. induction l as [|p l IH]; simpl; [done|].
  destruct (parse_product self page p); simpl; lia.
Qed.

Lemma skipped_warnings self page l :
  List.filter is_warning (skipped self page l) = skipped self page l
  ∧ length (skipped self page l)
    = length (List.filter (λ p, negb (well_formed self page p)) l).
Proof.
  unfold well_formed. induction l as [|p l [IH1 IH2]]; simpl; [done|].
  destruct (parse_product self page p); simpl; [done|].
  by rewrite IH1, IH2.
Qed.

(** C6: when the listings of a page are read to their end and [m] of its
    [K] listings do not parse, [parse_page] appends [K - m] rows, each with
    the page number, logs [m] warnings and leaves [self.errors] as it was:
    [K - 1] rows and one warning for one malformed listing, [K] rows and no
    warning for none. *)
Theorem parse_page_skips_malformed (html : string) (page : Z) (self : scraper) (m : nat) :
  let l := yielded (select_products html) in
  let self' := parse_page html page self in
  fault_of (select_products html) = None →
  length (List.filter (λ p, negb (well_formed self page p)) l) = m →
  ∃ rows,
    results self' = (results self ++ rows)%list
    ∧ length rows = (length l - m)%nat
    ∧ Forall (λ row, scraped_from_page row = page) rows
    ∧ length (List.filter is_warning (added self self')) = m
    ∧ errors self' = errors self.
Proof.
  intros l self' Hfault Hm. exists (rows_of self page l).
  subst self'. rewrite parse_page_spec, added_extend.
  unfold parse_delta; fold l; rewrite Hfault; simpl.
  pose proof (rows_of_length self page l) as Hlen.
  destruct (skipped_warnings self page l) as [Hw1 Hw2].
  split_and!; auto using rows_of_tagged, app_nil_r.
  - lia.
  - rewrite app_nil_r, Hw1. lia.
Qed.

(** C10: [parse_page] only appends: the rows and the error rows that were
    there stay, in place, and what is added bears the page number.  The rows
    of the listings read before a fault are added all the same, next to the
    error row of the fault. *)
Theorem parse_page_only_appends (html : string) (page : Z) (self : scraper) :
  let products := select_products html in
  let self' := parse_page html page self in
  results self' = (results self ++ rows_of self page (yielded products))%list
  ∧ errors self' = (errors self ++ parse_errors page (fault_of products))%list
  ∧ results self `prefix_of` results self'
  ∧ errors self `prefix_of` errors self'
  ∧ trace self `prefix_of` trace self'
  ∧ Forall (λ row, scraped_from_page row = page) (rows_of self page (yielded products))
  ∧ Forall (λ e, error_page e = page) (parse_errors page (fault_of products)).
Proof.
  intros products self'. subst self'. rewrite parse_page_spec. simpl.
  fold products. split_and!; auto using rows_of_tagged.
  - by eexists.
  - by eexists.
  - by eexists.
  - destruct (fault_of products); simpl; by repeat constructor.
Qed.

(** ** The task of one page *)

Lemma calls_app f p (t1 t2 : list event) :
  calls f p (t1 ++ t2) = (calls f p t1 + calls f p t2)%nat.
Proof. unfold calls. by rewrite List.filter_app, length_app. Qed.

Lemma calls_cons f p e (t : list event) :
  calls f p (e :: t) = ((if is_call f p e then 1 else 0) + calls f p t)%nat.
Proof. unfold calls; simpl. by destruct (is_call f p e). Qed.

(** What a fetch adds to an empty scraper. *)
Lemma fetch_page_delta page self :
  let d := (fetch_page page (blank self)).2 in
  base_url d = base_url self
  ∧ max_pages d = max_pages self
  ∧ max_concurrent d = max_concurrent self
  ∧ results d = []
  ∧ errors d = match fetched page with
               | None => [ErrorRecord page "Failed to fetch"]
               | Some _ => []
               end
  ∧ ∀ f p, calls f p (trace d)
           = (if (p =? page)%Z then match f with Fetch_page => 1 | Parse_page => 0 end
              else 0)%nat.
Proof.
  rewrite fetched_unfold.
  unfold fetch_page. change (seqZ 0 3) with [0; 1; 2]. simpl.
  assert (Hcall : ∀ f p,
    (if is_call f p (Call Fetch_page page) then 1 else 0)%nat
    = (if (p =? page)%Z then match f with Fetch_page => 1 | Parse_page => 0 end
       else 0)%nat).
  { intros [] p; simpl; rewrite ?(Z.eqb_sym page p); by destruct (p =? page). }
  attempt_cases page 0;
    [| attempt_cases page 1; [| attempt_cases page 2 | attempt_cases page 2
                               | attempt_cases page 2]
     | attempt_cases page 1; [| attempt_cases page 2 | attempt_cases page 2
                               | attempt_cases page 2]
     | attempt_cases page 1; [| attempt_cases page 2 | attempt_cases page 2
                               | attempt_cases page 2]];
    (split_and!; try done; intros f p; rewrite <- Hcall; unfold calls; simpl;
     by destruct f, (page =? p)).
Qed.

Lemma base_url_extend self d : base_url (extend self d) = base_url self.
Proof. done. Qed.

Lemma parse_delta_base (a b : scraper) html page :
  base_url a = base_url b → max_pages a = max_pages b →
  max_concurrent a = max_concurrent b →
  parse_delta a html page = parse_delta b html page.
Proof.
  intros Hurl Hp Hc. unfold parse_delta.
  by rewrite Hurl, Hp, Hc, (rows_of_base a b), (skipped_base a b).
Qed.

(** The body of a task adds to the scraper what it adds to an empty one. *)
Lemma wrapper_spec page self :
  scrape_page_wrapper page self
  = extend self
      (match fetched page with
       | Some html =>
           if truthy html then
             extend (fetch_page page (blank self)).2 (parse_delta self html page)
           else (fetch_page page (blank self)).2
       | None => (fetch_page page (blank self)).2
       end).
Proof.
  unfold scrape_page_wrapper.
  rewrite (surjective_pairing (fetch_page page self)).
  rewrite fetch_page_returns, fetch_page_extend. simpl.
  destruct (fetch_page_delta page self) as (Hurl & Hp & Hc & _).
  destruct (fetched page) as [html|]; [|done].
  destruct (truthy html); [|done].
  rewrite parse_page_spec, extend_extend. f_equal. f_equal.
  apply parse_delta_base; simpl; congruence.
Qed.

Lemma wrapper_errors page self :
  errors (scrape_page_wrapper page self) = (errors self ++ page_errors page)%list.
Proof.
  rewrite wrapper_spec. unfold page_errors.
  destruct (fetch_page_delta page self) as (_ & _ & _ & _ & He & _).
  destruct (fetched page) as [html|]; simpl; [|by rewrite He].
  destruct (truthy html); simpl; by rewrite He.
Qed.

Lemma wrapper_results page self :
  results (scrape_page_wrapper page self) = (results self ++ page_rows self page)%list.
Proof.
  rewrite wrapper_spec. unfold page_rows.
  destruct (fetch_page_delta page self) as (_ & _ & _ & Hr & _ & _).
  destruct (fetched page) as [html|]; simpl; [|by rewrite Hr].
  destruct (truthy html); simpl; by rewrite Hr.
Qed.

Lemma skipped_no_call f p self page l : calls f p (skipped self page l) = 0%nat.
Proof.
  induction l as [|x l IH]; simpl; [done|].
  destruct (parse_product self page x); [done|].
  unfold calls in *; simpl. by destruct f.
Qed.

Lemma wrapper_calls f p page self :
  calls f p (trace (scrape_page_wrapper page self))
  = (calls f p (trace self) + if (p =? page)%Z then page_calls f page else 0)%nat.
Proof.
  rewrite wrapper_spec. simpl. rewrite calls_app. f_equal.
  destruct (fetch_page_delta page self) as (_ & _ & _ & _ & _ & Hcalls).
  unfold page_calls, page_parsed.
  assert (Hparse : calls f p (trace (parse_delta self
                      (default "" (fetched page)) page))
                   = (if (p =? page)%Z
                      then match f with Fetch_page => 0 | Parse_page => 1 end
                      else 0)%nat).
  { unfold parse_delta; simpl.
    rewrite calls_cons, !calls_app, skipped_no_call.
    assert (calls f p match fault_of (select_products (default "" (fetched page))) with
                      | Some e => [Log ERROR ("Parse error at page " +:+ str_of_int page
                                              +:+ ": " +:+ e)]
                      | None => []
                      end = 0%nat) as -> by (by destruct (fault_of _), f).
    simpl. rewrite (Z.eqb_sym page p).
    destruct f, (p =? page); done. }
  destruct (fetched page) as [html|]; simpl in *; [|rewrite Hcalls].
  - destruct (truthy html); simpl; [rewrite calls_app, Hparse|]; rewrite Hcalls;
      destruct f, (p =? page); done.
  - destruct f, (p =? page); done.
Qed.

Lemma base_url_wrapper page self : base_url (scrape_page_wrapper page self) = base_url self.
Proof. by rewrite wrapper_spec. Qed.

(** ** The event loop *)

Lemma run_all_snoc dn page self :
  run_all (dn ++ [page]) self = scrape_page_wrapper page (run_all dn self).
Proof. revert self. induction dn as [|q dn IH]; intros self; simpl; auto. Qed.

(** What holds of every state the loop reaches: a permit is free or held by
    a task in flight; every page is waiting, in flight or completed; and the
    scraper is the one the completed tasks leave, in their order. *)
Lemma loop_invariant permits pages self l :
  rtc step (Loop permits pages [] [] self) l →
  (sem_value l + length (in_flight l) = permits)%nat
  ∧ waiting l ++ in_flight l ++ completed l ≡ₚ pages
  ∧ loop_self l = run_all (completed l) self.
Proof.
  revert l. apply rtc_ind_r.
  - simpl. split_and!; [lia| by rewrite app_nil_r | done].
  - intros l l' _ Hstep (Hsem & Hperm & Hself).
    inversion Hstep; subst; simpl in *.
    + split_and!; [lia| |done].
      rewrite <- Hperm, <- !app_assoc. simpl.
      by rewrite <- !Permutation_middle.
    + rewrite !length_app in *. simpl in *.
      split_and!; [lia| |by rewrite run_all_snoc, Hself].
      rewrite <- Hperm, <- !app_assoc. simpl.
      rewrite <- !Permutation_middle. by rewrite app_nil_r.
Qed.

(** With a permit, the tasks can be run one after the other. *)
Lemma loop_can_finish permits pages dn self :
  (1 ≤ permits)%nat →
  rtc step (Loop permits pages [] dn self)
           (Loop permits [] [] (dn ++ pages) (run_all pages self)).
Proof.
  intros Hp. destruct permits as [|n]; [lia|]. clear Hp.
  revert dn self. induction pages as [|page rest IH]; intros dn self; simpl.
  - by rewrite app_nil_r.
  - eapply rtc_l; [apply (step_acquire n [] page rest [] dn self)|].
    eapply rtc_l; [apply (step_release n rest [] page [] dn self)|].
    simpl. rewrite (cons_middle page dn rest), app_assoc. apply IH.
Qed.

(** No state is stuck before the end, and every step uses up work. *)
Lemma loop_progress permits pages self l :
  (1 ≤ permits)%nat →
  rtc step (Loop permits pages [] [] self) l →
  idle l ∨ ∃ l', step l l'.
Proof.
  intros Hp Hrun. destruct (loop_invariant _ _ _ _ Hrun) as (Hsem & _ & _).
  destruct l as [n w fl dn s]; simpl in *.
  destruct fl as [|page fl].
  - destruct w as [|page w]; [by left|right].
    destruct n as [|n]; [simpl in Hsem; lia|].
    eexists. apply (step_acquire n [] page w [] dn s).
  - right. eexists. apply (step_release n w [] page fl dn s).
Qed.

Lemma step_measure l l' :
  step l l' →
  (2 * length (waiting l') + length (in_flight l')
   < 2 * length (waiting l) + length (in_flight l))%nat.
Proof. intros Hstep. inversion Hstep; subst; simpl; rewrite !length_app; simpl; lia. Qed.

(** ** The collections after a run *)

Lemma errors_of_app p (a b : list error_record) :
  errors_of p (a ++ b) = (errors_of p a ++ errors_of p b)%list.
Proof. apply List.filter_app. Qed.

Lemma products_of_app p (a b : list (product_record float)) :
  products_of p (a ++ b) = (products_of p a ++ products_of p b)%list.
Proof. apply List.filter_app. Qed.

Lemma filter_tagged {A} (tag : A → Z) (p q : Z) (l : list A) :
  Forall (λ a, tag a = q) l →
  List.filter (λ a, tag a =? p) l = if decide (p = q) then l else [].
Proof.
  induction 1 as [|a l Ha _ IH]; simpl; [by destruct (decide _)|].
  rewrite IH, Ha. destruct (decide (p = q)) as [->|Hne].
  - by rewrite Z.eqb_refl.
  - destruct (q =? p) eqn:Hq; [|done]. apply Z.eqb_eq in Hq. congruence.
Qed.

Lemma page_errors_tagged q : Forall (λ e, error_page e = q) (page_errors q).
Proof.
  unfold page_errors. destruct (fetched q) as [html|]; [|by repeat constructor].
  destruct (truthy html); [|constructor].
  destruct (fault_of _); simpl; by repeat constructor.
Qed.

Lemma page_rows_tagged self q :
  Forall (λ row, scraped_from_page row = q) (page_rows self q).
Proof.
  unfold page_rows. destruct (fetched q) as [html|]; [|constructor].
  destruct (truthy html); [apply rows_of_tagged|constructor].
Qed.

Lemma page_rows_base (a b : scraper) q :
  base_url a = base_url b → page_rows a q = page_rows b q.
Proof.
  intros Hurl. unfold page_rows. destruct (fetched q) as [html|]; [|done].
  destruct (truthy html); [by apply rows_of_base|done].
Qed.

Lemma run_all_base dn self : base_url (run_all dn self) = base_url self.
Proof.
  revert self. induction dn as [|q dn IH]; intros self; simpl; [done|].
  by rewrite IH, base_url_wrapper.
Qed.

Lemma run_all_errors_of p dn self :
  NoDup dn →
  errors_of p (errors (run_all dn self))
  = (errors_of p (errors self) ++ if decide (p ∈ dn) then page_errors p else [])%list.
Proof.
  intros Hnd. revert self.
  induction Hnd as [|q dn Hq Hnd IH]; intros self; cbn [run_all].
  - rewrite decide_False by apply not_elem_of_nil. by rewrite app_nil_r.
  - rewrite IH, wrapper_errors, errors_of_app.
    unfold errors_of at 2.
    rewrite (filter_tagged error_page p q) by apply page_errors_tagged.
    rewrite <- app_assoc. f_equal.
    page_cases p q dn; simpl; auto using app_nil_r.
Qed.

Lemma run_all_products_of p dn self :
  NoDup dn →
  products_of p (results (run_all dn self))
  = (products_of p (results self) ++ if decide (p ∈ dn) then page_rows self p else [])%list.
Proof.
  intros Hnd. revert self.
  induction Hnd as [|q dn Hq Hnd IH]; intros self; cbn [run_all].
  - rewrite decide_False by apply not_elem_of_nil. by rewrite app_nil_r.
  - rewrite IH, wrapper_results, products_of_app.
    unfold products_of at 2.
    rewrite (filter_tagged scraped_from_page p q) by apply page_rows_tagged.
    rewrite <- app_assoc. f_equal.
    rewrite (page_rows_base (scrape_page_wrapper q self) self) by apply base_url_wrapper.
    page_cases p q dn; simpl; auto using app_nil_r.
Qed.

Lemma run_all_calls f p dn self :
  NoDup dn →
  calls f p (trace (run_all dn self))
  = (calls f p (trace self) + if decide (p ∈ dn) then page_calls f p else 0)%nat.
Proof.
  intros Hnd. revert self.
  induction Hnd as [|q dn Hq Hnd IH]; intros self; cbn [run_all].
  - rewrite decide_False by apply not_elem_of_nil. lia.
  - rewrite IH, wrapper_calls. rewrite <- Nat.add_assoc. f_equal.
    destruct (p =? q) eqn:Hpq; [apply Z.eqb_eq in Hpq|apply Z.eqb_neq in Hpq];
      page_cases p q dn; lia.
Qed.

(** The closing lines of [scrape_all] only log. *)
Lemma summary_frame elapsed self :
  results (summary elapsed self).2 = results self
  ∧ errors (summary elapsed self).2 = errors self
  ∧ ∀ f p, calls f p (trace (summary elapsed self).2) = calls f p (trace self).
Proof.
  unfold summary. destruct (Qeq_bool elapsed 0); simpl; split_and!; try done;
    intros f p; rewrite !calls_app; unfold calls; simpl; lia.
Qed.

(** A run that gets its semaphore is the tasks of the pages 1..[max_pages]
    run one after the other in the order they complete, then the summary. *)
Lemma scrape_all_linear start_time end_time self out :
  0 ≤ max_concurrent self →
  scrape_all start_time end_time self out →
  ∃ dn, dn ≡ₚ seqZ 1 (max_pages self)
        ∧ out = summary (end_time - start_time)%Q
                  (run_all dn (logging INFO "Starting scrape..." self)).
Proof.
  intros Hc Hrun. inversion Hrun as [e Hsem|permits final Hsem Hsteps [Hw Hf]]; subst.
  - unfold Semaphore in Hsem. destruct (max_concurrent self <? 0) eqn:Hneg; [lia|done].
  - destruct (loop_invariant _ _ _ _ Hsteps) as (_ & Hperm & Hself).
    rewrite Hw, Hf in Hperm. simpl in Hperm.
    exists (completed final). split; [done|]. by rewrite Hself.
Qed.

Lemma scrape_all_exists start_time end_time self :
  1 ≤ max_concurrent self →
  ∃ out, scrape_all start_time end_time self out.
Proof.
  intros Hc. eexists.
  eapply (scrape_all_run _ _ _ (Z.to_nat (max_concurrent self))).
  - unfold Semaphore. destruct (max_concurrent self <? 0) eqn:Hneg; [lia|done].
  - apply (loop_can_finish _ _ []). lia.
  - done.
Qed.

(** What a run that gets its semaphore leaves, page by page: the calls, the
    error rows and the product rows of a page in 1..[max_pages] are those of
    its task, once; no other page gets any. *)
Lemma scrape_all_pages start_time end_time self out :
  0 ≤ max_concurrent self →
  scrape_all start_time end_time self out →
  ∀ p,
    (∀ f, calls f p (trace out.2)
          = (calls f p (trace self)
             + if decide (1 ≤ p ≤ max_pages self)%Z then page_calls f p else 0)%nat)
    ∧ errors_of p (errors out.2)
      = (errors_of p (errors self)
         ++ if decide (1 ≤ p ≤ max_pages self) then page_errors p else [])%list
    ∧ products_of p (results out.2)
      = (products_of p (results self)
         ++ if decide (1 ≤ p ≤ max_pages self) then page_rows self p else [])%list.
Proof.
  intros Hc Hrun p.
  destruct (scrape_all_linear _ _ _ _ Hc Hrun) as (dn & Hperm & ->).
  assert (Hnd : NoDup dn) by (rewrite Hperm; apply NoDup_seqZ).
  assert (Hin : p ∈ dn ↔ 1 ≤ p ≤ max_pages self)
    by (rewrite Hperm, elem_of_seqZ; lia).
  destruct (summary_frame (end_time - start_time)%Q
              (run_all dn (logging INFO "Starting scrape..." self)))
    as (-> & -> & Hcalls).
  split_and!.
  - intros f. rewrite Hcalls, run_all_calls by done. simpl.
    rewrite calls_app. unfold calls at 2; simpl.
    rewrite (decide_ext _ _ _ _ Hin). lia.
  - rewrite run_all_errors_of by done.
    by rewrite (decide_ext _ _ _ _ Hin).
  - rewrite run_all_products_of by done.
    rewrite (decide_ext _ _ _ _ Hin).
    by rewrite (page_rows_base (logging INFO "Starting scrape..." self) self).
Qed.

(** C1, as amended: with a cap of at least one, a run of [scrape_all] on a
    fresh scraper ends, and it calls [fetch_page] once for each page of
    1..P and for no other page.  A page whose fetch fails is not handed to
    [parse_page] and has one row in [self.errors]; a page fetched with a
    non-empty body is handed to [parse_page] once, and has a row in
    [self.errors] exactly when its listings end in a fault; a page fetched
    with an empty body is neither handed to [parse_page] nor in
    [self.errors]. *)
Theorem scrape_all_fetches_each_page_once (url : string) (P C : Z) (start_time end_time : Q) :
  1 ≤ C →
  (∃ out, scrape_all start_time end_time (init url P C) out)
  ∧ ∀ out, scrape_all start_time end_time (init url P C) out →
      ∀ p,
        calls Fetch_page p (trace out.2) = (if decide (1 ≤ p ≤ P)%Z then 1 else 0)%nat
        ∧ (1 ≤ p ≤ P →
           match fetched p with
           | None =>
               calls Parse_page p (trace out.2) = 0%nat
               ∧ errors_of p (errors out.2) = [ErrorRecord p "Failed to fetch"]
           | Some html =>
               if truthy html then
                 calls Parse_page p (trace out.2) = 1%nat
                 ∧ errors_of p (errors out.2)
                   = parse_errors p (fault_of (select_products html))
               else
                 calls Parse_page p (trace out.2) = 0%nat
                 ∧ errors_of p (errors out.2) = []
           end).
Proof.
  intros HC. split; [by apply scrape_all_exists|].
  intros out Hrun p.
  assert (Hcap : 0 ≤ max_concurrent (init url P C)) by (unfold init; simpl; lia).
  destruct (scrape_all_pages _ _ _ _ Hcap Hrun p) as (Hcalls & Herr & _).
  simpl in Hcalls, Herr. split.
  - rewrite Hcalls. unfold calls; simpl. by destruct (decide (1 ≤ p ≤ P)).
  - intros Hp. rewrite !Hcalls, Herr. rewrite !decide_True by done.
    unfold calls, page_calls, page_parsed, page_errors; simpl.
    destruct (fetched p) as [html|]; [|done].
    by destruct (truthy html).
Qed.

(** C5: from the start of the loop on, the tasks in flight and the free
    permits add up to the value the semaphore was made with, so the tasks in
    flight are never more than [max_concurrent]; and a step that runs the
    body of a task, the only place of a fetch, is taken by a task in
    flight. *)
Theorem in_flight_never_exceeds_cap (self : scraper) (permits : nat) (l : loop) :
  Semaphore (max_concurrent self) = Ok permits →
  rtc step (dispatch permits (logging INFO "Starting scrape..." self)) l →
  Z.of_nat (length (in_flight l)) ≤ max_concurrent self
  ∧ (sem_value l + length (in_flight l))%nat = permits
  ∧ ∀ l', step l l' →
      loop_self l' = loop_self l
      ∨ ∃ page, page ∈ in_flight l
                ∧ loop_self l' = scrape_page_wrapper page (loop_self l).
Proof.
  intros Hsem Hrun. destruct (loop_invariant _ _ _ _ Hrun) as (Hinv & _ & _).
  unfold Semaphore in Hsem.
  destruct (max_concurrent self <? 0) eqn:Hneg; [done|].
  injection Hsem as <-. split_and!; [lia|done|].
  intros l' Hstep. inversion Hstep; subst; simpl; [by left|right].
  exists page. split; [|done]. apply elem_of_app. right. apply elem_of_cons. by left.
Qed.

(** C3 does not hold of the code: the summary divides by the elapsed time
    without a test, so a run whose two clock readings are equal raises
    [ZeroDivisionError] after the three first lines of the summary. *)
Theorem scrape_all_zero_elapsed (start_time end_time : Q) (self : scraper)
    (out : result () * scraper) :
  0 ≤ max_concurrent self →
  (end_time == start_time)%Q →
  scrape_all start_time end_time self out →
  out.1 = Raise "float division by zero".
Proof.
  intros Hc Heq Hrun.
  destruct (scrape_all_linear _ _ _ _ Hc Hrun) as (dn & _ & ->).
  unfold summary.
  assert (Qeq_bool (end_time - start_time) 0 = true) as ->; [|done].
  apply Qeq_bool_iff. rewrite Heq. apply Qplus_opp_r.
Qed.

(** C9: when the first attempt with status 200 carries an empty body,
    [fetch_page] returns the empty text, a success and not the failure
    [None]; the task of the page then skips [parse_page] and leaves
    [self.results] and [self.errors] as they were, so that after a run on a
    fresh scraper neither collection has a row of the page. *)
Theorem empty_body_page_is_dropped (page attempt : Z) (self : scraper) :
  0 ≤ attempt < 3 →
  (∀ k, 0 ≤ k < attempt → retried (session_get page k) = true) →
  session_get page attempt = Response 200 "" →
  (fetch_page page self).1 = Some ""
  ∧ outcome page (fetch_page page self).1 = Success page ""
  ∧ calls Parse_page page (added self (scrape_page_wrapper page self)) = 0%nat
  ∧ results (scrape_page_wrapper page self) = results self
  ∧ errors (scrape_page_wrapper page self) = errors self
  ∧ ∀ url P C start_time end_time out,
      0 ≤ C →
      scrape_all start_time end_time (init url P C) out →
      products_of page (results out.2) = [] ∧ errors_of page (errors out.2) = [].
Proof.
  intros Hattempt Hbefore H200.
  assert (Hfetched : fetched page = Some "").
  { rewrite fetched_unfold.
    assert (Hnone : ∀ k, 0 ≤ k < attempt → body_of (session_get page k) = None).
    { intros k Hk. specialize (Hbefore k Hk). unfold retried, body_of in *.
      destruct (session_get page k) as [status ?| |]; try done.
      by destruct (status =? 200). }
    assert (attempt = 0 ∨ attempt = 1 ∨ attempt = 2) as [->|[->| ->]] by lia.
    - by rewrite H200.
    - by rewrite (Hnone 0), H200 by lia.
    - by rewrite (Hnone 0), (Hnone 1), H200 by lia. }
  rewrite fetch_page_returns, Hfetched.
  split_and!; try done.
  - pose proof (wrapper_calls Parse_page page page self) as Hcalls.
    rewrite wrapper_spec, added_extend. rewrite wrapper_spec in Hcalls.
    simpl in Hcalls. rewrite calls_app in Hcalls.
    unfold page_calls, page_parsed in Hcalls. rewrite Hfetched in Hcalls.
    simpl in Hcalls. rewrite Hfetched. simpl. destruct (page =? page); lia.
  - rewrite wrapper_results. unfold page_rows. rewrite Hfetched. apply app_nil_r.
  - rewrite wrapper_errors. unfold page_errors. rewrite Hfetched. apply app_nil_r.
  - intros url P C start_time end_time out HC Hrun.
    assert (Hcap : 0 ≤ max_concurrent (init url P C)) by (unfold init; simpl; lia).
    destruct (scrape_all_pages _ _ _ _ Hcap Hrun page) as (_ & -> & ->).
    unfold page_errors, page_rows. rewrite Hfetched. simpl.
    split; by destruct (decide _).
Qed.

(** ** [export_to_excel] *)

(** C2 does not hold of the code: with no product row, [export_to_excel]
    returns before the block that writes the error report, whatever
    [self.errors] holds; no file is written. *)
Theorem export_without_products_writes_nothing (filename : string) (self : scraper) :
  results self = [] →
  export_to_excel filename self = (Ok None, [], logging WARNING "No data to export" self).
Proof. intros Hr. unfold export_to_excel. by rewrite Hr. Qed.

Lemma insert_row_perm a df : insert_row a df ≡ₚ a :: df.
Proof.
  induction df as [|b df IH]; simpl; [done|].
  destruct (row_le a b); [done|]. rewrite IH. apply Permutation_swap.
Qed.

Lemma sort_values_perm df : sort_values df ≡ₚ df.
Proof.
  induction df as [|a df IH]; simpl; [done|].
  by rewrite insert_row_perm, IH.
Qed.

Lemma stands_before_keys a b :
  stands_before a b →
  product_rating b ≤ product_rating a
  ∧ (product_rating a = product_rating b →
     float_le (product_price a) (product_price b) = true).
Proof.
  unfold stands_before, row_le. intros H.
  apply orb_true_iff in H as [H|H].
  - apply Z.ltb_lt in H. lia.
  - apply andb_true_iff in H as [H1 H2]. apply Z.eqb_eq in H1. split; [lia|done].
Qed.

Lemma StronglySorted_pairs {A} (R : A → A → Prop) (l : list A) i j a b :
  StronglySorted R l → (i < j)%nat → l !! i = Some a → l !! j = Some b → R a b.
Proof.
  intros Hs. revert i j. induction Hs as [|x l Hs IH Hall]; intros i j Hij Hi Hj.
  - done.
  - destruct j as [|j]; [lia|]. destruct i as [|i]; simpl in *.
    + injection Hi as <-. rewrite List.Forall_forall in Hall.
      apply Hall, list_elem_of_In. by eapply list_elem_of_lookup_2.
    + apply (IH i j); [lia|done..].
Qed.

Section Sorted_export.

(** The order of the float column compares any two values and is transitive. *)
Hypothesis float_le_total : ∀ x y, float_le x y = true ∨ float_le y x = true.
Hypothesis float_le_trans :
  ∀ x y z, float_le x y = true → float_le y z = true → float_le x z = true.

Lemma stands_before_total a b : stands_before a b ∨ stands_before b a.
Proof.
  unfold stands_before, row_le.
  destruct (Z.lt_trichotomy (product_rating a) (product_rating b)) as [Hlt|[Heq|Hgt]].
  - right. apply orb_true_iff. left. by apply Z.ltb_lt.
  - destruct (float_le_total (product_price a) (product_price b)) as [Hle|Hle].
    + left. apply orb_true_iff. right. rewrite Hle, Heq, Z.eqb_refl. done.
    + right. apply orb_true_iff. right. rewrite Hle, Heq, Z.eqb_refl. done.
  - left. apply orb_true_iff. left. by apply Z.ltb_lt.
Qed.

Lemma stands_before_trans : Transitive stands_before.
Proof.
  intros a b c Hab Hbc.
  destruct (stands_before_keys _ _ Hab) as [Hr1 Hp1].
  destruct (stands_before_keys _ _ Hbc) as [Hr2 Hp2].
  unfold stands_before, row_le. apply orb_true_iff.
  destruct (decide (product_rating c < product_rating a)) as [Hlt|Hge].
  - left. by apply Z.ltb_lt.
  - right. assert (product_rating a = product_rating b) as Hab' by lia.
    assert (product_rating b = product_rating c) as Hbc' by lia.
    apply andb_true_iff. split; [apply Z.eqb_eq; lia|].
    eapply float_le_trans; eauto.
Qed.

Lemma insert_row_sorted a df :
  Sorted stands_before df → Sorted stands_before (insert_row a df).
Proof.
  induction 1 as [|b df Hs IH Hhd]; simpl.
  - by repeat constructor.
  - destruct (row_le a b) eqn:Hab.
    + by repeat constructor.
    + constructor; [done|].
      assert (stands_before b a) as Hba
        by (destruct (stands_before_total a b) as [H|H]; [congruence|done]).
      destruct df as [|c df]; simpl; [by constructor|].
      destruct (row_le a c); constructor; [done|].
      by apply HdRel_inv in Hhd.
Qed.

Lemma sort_values_sorted df : StronglySorted stands_before (sort_values df).
Proof.
  apply Sorted_StronglySorted; [apply stands_before_trans|].
  induction df as [|a df IH]; simpl; [constructor|by apply insert_row_sorted].
Qed.

(** C8: when there are product rows, the frame [export_to_excel] hands to
    the writer holds the rows of [self.results], each once, in an order in
    which a row never has a lower rating than a row below it and, at equal
    ratings, never a price above it in the order of the price column.  When
    the writer returns, the sheet "Products" of the file written holds these
    rows in this order; when it raises, so does the export, and no file is
    written. *)
Theorem export_rows_sorted (filename : string) (self : scraper) :
  results self ≠ [] →
  let name := remove_all ".xlsx" filename +:+ "_" +:+ timestamp +:+ ".xlsx" in
  ∃ rows widths,
    rows ≡ₚ results self
    ∧ (∀ i j a b, (i < j)%nat → rows !! i = Some a → rows !! j = Some b →
         product_rating b ≤ product_rating a
         ∧ (product_rating a = product_rating b →
            float_le (product_price a) (product_price b) = true))
    ∧ (excel_writer name rows = Ok () →
       ∃ others,
         (export_to_excel filename self).1.2
         = ProductsFile name "Products" rows widths :: others)
    ∧ (∀ e, excel_writer name rows = Raise e →
         (export_to_excel filename self).1 = (Raise e, [])).
Proof.
  intros Hr name. subst name. unfold export_to_excel.
  destruct (results self) as [|row rest] eqn:Hres; [done|].
  cbv beta iota zeta.
  set (name := remove_all ".xlsx" filename +:+ "_" +:+ timestamp +:+ ".xlsx").
  set (df := sort_values (row :: rest)).
  exists df, (column_widths df).
  split; [apply sort_values_perm|]. split.
  { intros i j a b Hij Hi Hj. apply stands_before_keys.
    eapply (StronglySorted_pairs stands_before df i j);
      eauto using sort_values_sorted. }
  split.
  - intros Hw. rewrite Hw. destruct (errors _); [by eexists|].
    destruct (to_excel _ _); by eexists.
  - intros e Hw. by rewrite Hw.
Qed.

End Sorted_export.

(** ** Further properties of a run *)

Lemma run_all_results dn self :
  results (run_all dn self) = (results self ++ flat_map (page_rows self) dn)%list.
Proof.
  revert self. induction dn as [|q dn IH]; intros self; simpl.
  - by rewrite app_nil_r.
  - rewrite IH, wrapper_results, <- app_assoc. f_equal. f_equal.
    apply flat_map_ext. intros p. apply page_rows_base, base_url_wrapper.
Qed.

Lemma run_all_errors dn self :
  errors (run_all dn self) = (errors self ++ flat_map page_errors dn)%list.
Proof.
  revert self. induction dn as [|q dn IH]; intros self; simpl.
  - by rewrite app_nil_r.
  - by rewrite IH, wrapper_errors, <- app_assoc.
Qed.

(** The loop cannot stall and cannot run for ever: with a permit, a state
    the loop reaches either has no task left or has a next step, and every
    step lowers twice the number of waiting tasks plus the number of tasks
    in flight. *)
Theorem event_loop_makes_progress (self : scraper) (permits : nat) (l : loop) :
  (1 ≤ permits)%nat →
  rtc step (dispatch permits self) l →
  (idle l ∨ ∃ l', step l l')
  ∧ ∀ l', step l l' →
      (2 * length (waiting l') + length (in_flight l')
       < 2 * length (waiting l) + length (in_flight l))%nat.
Proof.
  intros Hp Hrun. split; [by eapply loop_progress|apply step_measure].
Qed.

(** The rows a run collects do not depend on the order in which the tasks
    complete, up to their order in the two lists: they are the rows and the
    error rows of the pages 1..[max_pages]. *)
Theorem scrape_all_collects_up_to_order (start_time end_time : Q) (self : scraper)
    (out : result () * scraper) :
  0 ≤ max_concurrent self →
  scrape_all start_time end_time self out →
  results out.2 ≡ₚ results self ++ flat_map (page_rows self) (seqZ 1 (max_pages self))
  ∧ errors out.2 ≡ₚ errors self ++ flat_map page_errors (seqZ 1 (max_pages self)).
Proof.
  intros Hc Hrun.
  destruct (scrape_all_linear _ _ _ _ Hc Hrun) as (dn & Hperm & ->).
  destruct (summary_frame (end_time - start_time)%Q
              (run_all dn (logging INFO "Starting scrape..." self)))
    as (-> & -> & _).
  rewrite run_all_results, run_all_errors. simpl.
  rewrite (flat_map_ext _ (page_rows self))
    by (intros p; by apply page_rows_base).
  by rewrite Hperm.
Qed.


(** ** Facts on strings *)

Lemma startswith_app p s : startswith p (p +:+ s) = true.
Proof.
  induction p as [|a p IH]; simpl; [done|].
  by rewrite Ascii.eqb_refl.
Qed.

Lemma length_append (s t : string) :
  String.length (s +:+ t) = (String.length s + String.length t)%nat.
Proof. induction s as [|a s IH]; simpl; [done|]. by f_equal. Qed.

Lemma append_assoc (s t u : string) : (s +:+ t) +:+ u = s +:+ t +:+ u.
Proof.
  induction s as [|a s IH]; [done|].
  change (String a ((s +:+ t) +:+ u) = String a (s +:+ t +:+ u)). by f_equal.
Qed.

Lemma append_inj_r (s1 s2 t : string) : s1 +:+ t = s2 +:+ t → s1 = s2.
Proof.
  revert s2. induction s1 as [|a s1 IH]; intros [|b s2] H.
  - done.
  - apply (f_equal String.length) in H. rewrite !length_append in H. simpl in H. lia.
  - apply (f_equal String.length) in H. rewrite !length_append in H. simpl in H. lia.
  - change (String a (s1 +:+ t) = String b (s2 +:+ t)) in H.
    injection H as -> H. f_equal. by apply IH.
Qed.
(** ** Which listings give a row *)

Lemma rating_map_range k v : rating_map !! k = Some v → 1 ≤ v ≤ 5.
Proof.
  unfold rating_map. intros H. apply elem_of_list_to_map_2 in H.
  repeat (apply elem_of_cons in H as [H|H]; [injection H as _ ->; lia|]).
  by apply elem_of_nil in H.
Qed.

(** The row of a listing, read off the chain of [parse_product]. *)
Lemma parse_product_ok self page p row :
  parse_product self page p = Ok row ↔
  ∃ title price_text price cls word avail src href,
    h3_a_title p = Ok title
    ∧ price_color_text p = Ok price_text
    ∧ float_of_str (strip (remove_all "£" price_text)) = Ok price
    ∧ star_rating_class p = Ok cls
    ∧ cls !! 1%nat = Some word
    ∧ instock_availability_text p = Ok avail
    ∧ img_src p = Ok src
    ∧ h3_a_href p = Ok href
    ∧ row = Product title price (default 0 (rating_map !! word))
              (contains "In stock" (strip avail)) (strip avail)
              (base_url self +:+ "/" +:+ remove_all "../" src)
              (base_url self +:+ "/catalogue/" +:+ remove_all "../../../" href) page.
Proof.
  unfold parse_product. split.
  - intros Hp.
    destruct (h3_a_title p) as [title|]; simpl in Hp; [|done].
    destruct (price_color_text p) as [price_text|]; simpl in Hp; [|done].
    destruct (float_of_str _) as [price|] eqn:Hprice; simpl in Hp; [|done].
    destruct (star_rating_class p) as [cls|]; simpl in Hp; [|done].
    destruct (cls !! 1%nat) as [word|] eqn:Hword; simpl in Hp; [|done].
    destruct (instock_availability_text p) as [avail|]; simpl in Hp; [|done].
    destruct (img_src p) as [src|]; simpl in Hp; [|done].
    destruct (h3_a_href p) as [href|]; simpl in Hp; [|done].
    injection Hp as <-. by eexists title, price_text, price, cls, word, avail, src, href.
  - intros (title & price_text & price & cls & word & avail & src & href
            & -> & -> & Hprice & -> & Hword & -> & -> & -> & ->).
    simpl. rewrite Hprice. simpl. by rewrite Hword.
Qed.

(** A listing gives a row exactly when its six reads succeed, its price
    text without the pound sign and the blanks around it is a float, and its
    star-rating class has a second word.  The row then bears the page
    number, a rating from 0 to 5 (0 for a word the map does not know) and
    two addresses that begin with the base URL. *)
Theorem listing_gives_a_row_exactly_when (self : scraper) (page : Z) (p : listing) :
  (well_formed self page p = true ↔
   ∃ title price_text price cls avail src href,
     h3_a_title p = Ok title
     ∧ price_color_text p = Ok price_text
     ∧ float_of_str (strip (remove_all "£" price_text)) = Ok price
     ∧ star_rating_class p = Ok cls
     ∧ (2 ≤ length cls)%nat
     ∧ instock_availability_text p = Ok avail
     ∧ img_src p = Ok src
     ∧ h3_a_href p = Ok href)
  ∧ ∀ row, parse_product self page p = Ok row →
      scraped_from_page row = page
      ∧ 0 ≤ product_rating row ≤ 5
      ∧ (∀ cls word, star_rating_class p = Ok cls → cls !! 1%nat = Some word →
         rating_map !! word = None → product_rating row = 0)
      ∧ startswith (base_url self +:+ "/") (image_url row) = true
      ∧ startswith (base_url self +:+ "/catalogue/") (product_url row) = true.
Proof.
  split.
  - unfold well_formed. split.
    + destruct (parse_product self page p) as [row|] eqn:Hp; [intros _|done].
      apply parse_product_ok in Hp
        as (title & price_text & price & cls & word & avail & src & href
            & ? & ? & ? & ? & Hword & ? & ? & ? & _).
      exists title, price_text, price, cls, avail, src, href.
      split_and!; try done. apply lookup_lt_Some in Hword. lia.
    + intros (title & price_text & price & cls & avail & src & href
              & ? & ? & ? & ? & Hlen & ? & ? & ?).
      destruct (lookup_lt_is_Some_2 cls 1) as [word Hword]; [lia|].
      erewrite (proj2 (parse_product_ok self page p _)); [done|].
      by eexists title, price_text, price, cls, word, avail, src, href.
  - intros row Hp.
    apply parse_product_ok in Hp
      as (title & price_text & price & cls & word & avail & src & href
          & ? & ? & ? & Hcls & Hword & ? & ? & ? & ->).
    simpl. split; [done|]. split; [|split; [|split]].
    + destruct (rating_map !! word) as [v|] eqn:Hv; simpl; [|lia].
      apply rating_map_range in Hv. lia.
    + intros cls' word' Hcls' Hword' Hnone.
      rewrite Hcls in Hcls'. injection Hcls' as <-.
      rewrite Hword in Hword'. injection Hword' as <-. by rewrite Hnone.
    + rewrite <- append_assoc. apply startswith_app.
    + rewrite <- append_assoc. apply startswith_app.
Qed.

(** ** More on [fetch_page] *)

(** A fetch appends its error row exactly when it returns [None]: a fetch
    that succeeds, also after failed attempts, leaves [self.errors] as it
    was.  It never touches [self.results], and it logs one line for each
    attempt that failed: all but the last request of a success, all three
    requests of a failure. *)
Theorem fetch_page_records_error_exactly_on_failure (page : Z) (self : scraper) :
  let r := fetch_page page self in
  let gets := length (List.filter is_get (added self r.2)) in
  let logs := length (List.filter is_log (added self r.2)) in
  results r.2 = results self
  ∧ match r.1 with
    | Some _ => errors r.2 = errors self ∧ (logs + 1)%nat = gets
    | None =>
        errors r.2 = (errors self ++ [ErrorRecord page "Failed to fetch"])%list
        ∧ logs = 3%nat ∧ gets = 3%nat
    end.
Proof.
  intros r gets logs. subst r gets logs.
  rewrite fetch_page_extend. simpl. rewrite added_extend.
  unfold fetch_page. change (seqZ 0 3) with [0; 1; 2]. simpl.
  attempt_cases page 0; rewrite ?app_nil_r; try done;
    attempt_cases page 1; rewrite ?app_nil_r; try done;
    attempt_cases page 2; rewrite ?app_nil_r; done.
Qed.

Lemma get_headers_pool page attempt :
  ∃ ua, ua ∈ USER_AGENTS
        ∧ get_headers page attempt
          = [ ("User-Agent", ua);
              ("Accept", "text/html,application/xhtml+xml,application/xml;q=0.0,*/*;q=0.8");
              ("Accept-Language", "en-US,en;q=0.5") ].
Proof.
  unfold get_headers. eexists. split; [|reflexivity].
  apply list_elem_of_lookup_total_2. apply Nat.mod_upper_bound. simpl. lia.
Qed.

Lemma page_url_inj self p q : page_url self p = page_url self q → p = q.
Proof.
  unfold page_url, str_of_int. intros H.
  apply (inj (String.append _)) in H. apply (inj (String.append _)) in H.
  apply append_inj_r in H. by apply (inj pretty) in H.
Qed.

(** Every request of a fetch goes to the address of its own page, which no
    other page number shares, with the timeout 10, a user agent of the pool
    and the two fixed headers. *)
Theorem fetch_page_requests_only_its_page (page : Z) (self : scraper) :
  Forall (λ e, ∃ attempt ua,
            0 ≤ attempt < 3
            ∧ ua ∈ USER_AGENTS
            ∧ e = Get (page_url self page)
                    [ ("User-Agent", ua);
                      ("Accept", "text/html,application/xhtml+xml,application/xml;q=0.0,*/*;q=0.8");
                      ("Accept-Language", "en-US,en;q=0.5") ] 10
            ∧ get_headers page attempt
              = [ ("User-Agent", ua);
                  ("Accept", "text/html,application/xhtml+xml,application/xml;q=0.0,*/*;q=0.8");
                  ("Accept-Language", "en-US,en;q=0.5") ])
         (List.filter is_get (added self (fetch_page page self).2))
  ∧ ∀ other, page_url self other = page_url self page → other = page.
Proof.
  split; [|intros other H; by eapply page_url_inj].
  assert (Hget : ∀ attempt, 0 ≤ attempt < 3 →
    ∃ attempt' ua,
      0 ≤ attempt' < 3 ∧ ua ∈ USER_AGENTS
      ∧ Get (page_url self page) (get_headers page attempt) 10
        = Get (page_url self page)
            [ ("User-Agent", ua);
              ("Accept", "text/html,application/xhtml+xml,application/xml;q=0.0,*/*;q=0.8");
              ("Accept-Language", "en-US,en;q=0.5") ] 10
      ∧ get_headers page attempt'
        = [ ("User-Agent", ua);
            ("Accept", "text/html,application/xhtml+xml,application/xml;q=0.0,*/*;q=0.8");
            ("Accept-Language", "en-US,en;q=0.5") ]).
  { intros attempt Ha. destruct (get_headers_pool page attempt) as (ua & Hua & Heq).
    exists attempt, ua. by rewrite Heq. }
  rewrite fetch_page_extend. simpl. rewrite added_extend.
  unfold fetch_page. change (seqZ 0 3) with [0; 1; 2]. simpl.
  change (page_url (emit _ _) page) with (page_url self page).
  attempt_cases page 0; [| attempt_cases page 1; [| attempt_cases page 2..]..];
    repeat (constructor; [apply Hget; lia|]); constructor.
Qed.

(** ** More on a run *)

Lemma slept_app (a b : list event) : slept (a ++ b) = slept a + slept b.
Proof. induction a as [|[] a IH]; simpl; lia. Qed.

Lemma skipped_quiet self page l :
  List.filter is_get (skipped self page l) = [] ∧ slept (skipped self page l) = 0.
Proof.
  induction l as [|p l [IH1 IH2]]; simpl; [done|].
  by destruct (parse_product self page p).
Qed.

Lemma parse_delta_quiet self html page :
  List.filter is_get (trace (parse_delta self html page)) = []
  ∧ slept (trace (parse_delta self html page)) = 0.
Proof.
  unfold parse_delta. simpl.
  destruct (skipped_quiet self page (yielded (select_products html))) as [Hg Hs].
  rewrite List.filter_app, slept_app, Hg, Hs.
  by destruct (fault_of (select_products html)).
Qed.

(** The requests and the sleeps of one fetch. *)
Lemma fetch_page_budget page self :
  (1 ≤ length (List.filter is_get (trace (fetch_page page (blank self)).2)) ≤ 3)%nat
  ∧ 0 ≤ slept (trace (fetch_page page (blank self)).2) ≤ 3.
Proof.
  unfold fetch_page. change (seqZ 0 3) with [0; 1; 2]. simpl.
  attempt_cases page 0; [| attempt_cases page 1; [| attempt_cases page 2..]..];
    simpl; lia.
Qed.

(** The requests and the sleeps of one task. *)
Lemma wrapper_budget page self :
  ∃ (n : nat) (z : Z),
    (1 ≤ n ≤ 3)%nat ∧ 0 ≤ z ≤ 3
    ∧ length (List.filter is_get (trace (scrape_page_wrapper page self)))
      = (length (List.filter is_get (trace self)) + n)%nat
    ∧ slept (trace (scrape_page_wrapper page self)) = slept (trace self) + z.
Proof.
  destruct (fetch_page_budget page self) as [Hg Hs].
  exists (length (List.filter is_get (trace (fetch_page page (blank self)).2))),
         (slept (trace (fetch_page page (blank self)).2)).
  split; [done|]. split; [done|].
  rewrite wrapper_spec.
  destruct (fetched page) as [html|];
    [|simpl; by rewrite List.filter_app, length_app, slept_app].
  destruct (truthy html);
    [|simpl; by rewrite List.filter_app, length_app, slept_app].
  destruct (parse_delta_quiet self html page) as [Hpg Hps].
  generalize dependent (parse_delta self html page). intros pd Hpg Hps. simpl.
  rewrite !List.filter_app, !length_app, !slept_app, Hpg, Hps. simpl. split; lia.
Qed.

Lemma run_all_budget dn self :
  (length (List.filter is_get (trace self)) + length dn
   ≤ length (List.filter is_get (trace (run_all dn self)))
   ≤ length (List.filter is_get (trace self)) + 3 * length dn)%nat
  ∧ slept (trace self) ≤ slept (trace (run_all dn self))
    ≤ slept (trace self) + 3 * Z.of_nat (length dn).
Proof.
  revert self. induction dn as [|q dn IH]; intros self; simpl; [lia|].
  destruct (wrapper_budget q self) as (n & z & Hn & Hz & Hg & Hs).
  specialize (IH (scrape_page_wrapper q self)). rewrite Hg, Hs in IH. lia.
Qed.

Lemma summary_quiet elapsed self :
  List.filter is_get (trace (summary elapsed self).2) = List.filter is_get (trace self)
  ∧ slept (trace (summary elapsed self).2) = slept (trace self).
Proof.
  unfold summary. destruct (Qeq_bool elapsed 0); simpl;
    rewrite !List.filter_app, !slept_app; simpl; rewrite ?app_nil_r; split; (done || lia).
Qed.

(** A run over P pages makes between P and 3 P requests and sleeps at most
    3 P seconds in all, whatever the network does. *)
Theorem scrape_all_request_budget (url : string) (P C : Z) (start_time end_time : Q)
    (out : result () * scraper) :
  0 ≤ C →
  scrape_all start_time end_time (init url P C) out →
  Z.max 0 P ≤ Z.of_nat (length (List.filter is_get (trace out.2))) ≤ 3 * Z.max 0 P
  ∧ 0 ≤ slept (trace out.2) ≤ 3 * Z.max 0 P.
Proof.
  intros HC Hrun.
  assert (Hcap : 0 ≤ max_concurrent (init url P C)) by (unfold init; simpl; lia).
  destruct (scrape_all_linear _ _ _ _ Hcap Hrun) as (dn & Hperm & ->).
  destruct (summary_quiet (end_time - start_time)%Q
              (run_all dn (logging INFO "Starting scrape..." (init url P C))))
    as [-> ->].
  pose proof (run_all_budget dn (logging INFO "Starting scrape..." (init url P C)))
    as [Hg Hs].
  assert (Hlen : length dn = Z.to_nat P).
  { rewrite Hperm. apply length_seqZ. }
  simpl in Hg, Hs. rewrite Hlen in Hg, Hs. lia.
Qed.

Lemma rows_of_invariant self page l :
  Forall (λ row, scraped_from_page row = page
                 ∧ 0 ≤ product_rating row ≤ 5
                 ∧ startswith (base_url self +:+ "/") (image_url row) = true
                 ∧ startswith (base_url self +:+ "/catalogue/") (product_url row) = true)
         (rows_of self page l).
Proof.
  induction l as [|p l IH]; simpl; [constructor|].
  destruct (parse_product self page p) as [row|e] eqn:Hp; [|done].
  constructor; [|done].
  apply parse_product_ok in Hp
    as (title & price_text & price & cls & word & avail & src & href
        & _ & _ & _ & _ & _ & _ & _ & _ & ->).
  simpl. split; [done|]. split; [|split].
  - destruct (rating_map !! word) as [v|] eqn:Hv; simpl; [|lia].
    apply rating_map_range in Hv. lia.
  - rewrite <- append_assoc. apply startswith_app.
  - rewrite <- append_assoc. apply startswith_app.
Qed.

(** After a run on a fresh scraper every product row bears the number of a
    page of 1..P, has a rating from 0 to 5, and its two addresses begin
    with the base URL. *)
Theorem scrape_all_rows_invariant (url : string) (P C : Z) (start_time end_time : Q)
    (out : result () * scraper) :
  0 ≤ C →
  scrape_all start_time end_time (init url P C) out →
  Forall (λ row, 1 ≤ scraped_from_page row ≤ P
                 ∧ 0 ≤ product_rating row ≤ 5
                 ∧ startswith (url +:+ "/") (image_url row) = true
                 ∧ startswith (url +:+ "/catalogue/") (product_url row) = true)
         (results out.2).
Proof.
  intros HC Hrun.
  assert (Hcap : 0 ≤ max_concurrent (init url P C)) by (unfold init; simpl; lia).
  destruct (scrape_all_linear _ _ _ _ Hcap Hrun) as (dn & Hperm & ->).
  destruct (summary_frame (end_time - start_time)%Q
              (run_all dn (logging INFO "Starting scrape..." (init url P C))))
    as (-> & _ & _).
  rewrite run_all_results. simpl.
  apply Forall_flat_map, List.Forall_forall. intros q Hq.
  assert (1 ≤ q ≤ P) as Hrange.
  { apply list_elem_of_In in Hq. rewrite Hperm, elem_of_seqZ in Hq.
    unfold init in Hq. simpl in Hq. lia. }
  unfold page_rows. destruct (fetched q) as [html|]; [|constructor].
  destruct (truthy html); [|constructor].
  eapply Forall_impl; [apply rows_of_invariant|].
  simpl. intros row (-> & ? & ? & ?). done.
Qed.

Lemma page_errors_length q : (length (page_errors q) ≤ 1)%nat.
Proof.
  unfold page_errors. destruct (fetched q) as [html|]; simpl; [|lia].
  destruct (truthy html); simpl; [|lia].
  destruct (fault_of _); simpl; lia.
Qed.

Lemma flat_map_length_le {A B} (f : A → list B) (l : list A) :
  (∀ a, (length (f a) ≤ 1)%nat) → (length (flat_map f l) ≤ length l)%nat.
Proof.
  intros Hf. induction l as [|a l IH]; simpl; [lia|].
  rewrite length_app. specialize (Hf a). lia.
Qed.

(** The row "Failed to fetch" is the row of a fetch that returned [None]. *)
Lemma failed_to_fetch_row q p :
  ErrorRecord p "Failed to fetch" ∈ page_errors q → p = q ∧ fetched q = None.
Proof.
  unfold page_errors. destruct (fetched q) as [html|].
  - destruct (truthy html); [|by intros ?%elem_of_nil].
    destruct (fault_of _); simpl; [|by intros ?%elem_of_nil].
    intros [H|H%elem_of_nil]%elem_of_cons; [|done].
    injection H as _ H. discriminate H.
  - intros [H|H%elem_of_nil]%elem_of_cons; [|done]. by injection H as ->.
Qed.

(** After a run on a fresh scraper a page has at most one error row, the
    error rows are at most P and bear page numbers of 1..P, and a page with
    the row "Failed to fetch" was not parsed and has no product row. *)
Theorem scrape_all_errors_per_page (url : string) (P C : Z) (start_time end_time : Q)
    (out : result () * scraper) :
  0 ≤ C →
  scrape_all start_time end_time (init url P C) out →
  (∀ p, (length (errors_of p (errors out.2)) ≤ 1)%nat)
  ∧ Z.of_nat (length (errors out.2)) ≤ Z.max 0 P
  ∧ Forall (λ e, 1 ≤ error_page e ≤ P) (errors out.2)
  ∧ ∀ p, ErrorRecord p "Failed to fetch" ∈ errors out.2 →
      products_of p (results out.2) = []
      ∧ calls Parse_page p (trace out.2) = 0%nat.
Proof.
  intros HC Hrun.
  assert (Hcap : 0 ≤ max_concurrent (init url P C)) by (unfold init; simpl; lia).
  pose proof (scrape_all_pages _ _ _ _ Hcap Hrun) as Hpages.
  destruct (scrape_all_linear _ _ _ _ Hcap Hrun) as (dn & Hperm & Hout).
  assert (Herrors : errors out.2 = flat_map page_errors dn).
  { rewrite Hout.
    destruct (summary_frame (end_time - start_time)%Q
                (run_all dn (logging INFO "Starting scrape..." (init url P C))))
      as (_ & -> & _).
    by rewrite run_all_errors. }
  assert (Hdn : ∀ q, q ∈ dn ↔ 1 ≤ q ≤ P).
  { intros q. rewrite Hperm, elem_of_seqZ. unfold init. simpl. lia. }
  assert (Hlen : length dn = Z.to_nat P).
  { rewrite Hperm. unfold init. simpl. apply length_seqZ. }
  split_and!.
  - intros p. destruct (Hpages p) as (_ & -> & _). simpl.
    destruct (decide _); simpl; [apply page_errors_length|lia].
  - rewrite Herrors.
    pose proof (flat_map_length_le page_errors dn page_errors_length). lia.
  - rewrite Herrors. apply Forall_flat_map, List.Forall_forall. intros q Hq.
    apply list_elem_of_In, Hdn in Hq.
    eapply Forall_impl; [apply page_errors_tagged|]. simpl. by intros e ->.
  - intros p Hp. rewrite Herrors in Hp.
    apply list_elem_of_In, in_flat_map in Hp as (q & Hq & Hrow).
    apply list_elem_of_In, Hdn in Hq. apply list_elem_of_In in Hrow.
    apply failed_to_fetch_row in Hrow as [-> Hnone].
    destruct (Hpages q) as (Hcalls & _ & ->).
    rewrite (Hcalls Parse_page). rewrite !decide_True by done.
    unfold init, page_rows, page_calls, page_parsed. rewrite Hnone. simpl.
    split; [done|]. unfold calls. simpl. done.
Qed.

(** With no permit no task ever starts. *)
Lemma no_permit_no_step w dn self l :
  rtc step (Loop 0 w [] dn self) l → l = Loop 0 w [] dn self.
Proof.
  intros Hrun. inversion Hrun as [|x y z Hstep Hrest]; subst; [done|].
  inversion Hstep as [|n w' f1 page f2 dn' self' Heq]; subst.
  by destruct f1.
Qed.

(** [scrape_all] comes to an end, by a return or by an exception, unless
    [max_concurrent] is 0 and there is a page to fetch: then no task can
    take the semaphore and the call never ends. *)
Theorem scrape_all_ends_exactly_when (start_time end_time : Q) (self : scraper) :
  (∃ out, scrape_all start_time end_time self out)
  ↔ ¬ (max_concurrent self = 0 ∧ 1 ≤ max_pages self).
Proof.
  split.
  - intros [out Hrun] [Hc Hp].
    inversion Hrun as [e Hsem|permits final Hsem Hsteps [Hw Hf]]; subst;
      unfold Semaphore in Hsem; rewrite Hc in Hsem; simpl in Hsem; [done|].
    injection Hsem as <-. apply no_permit_no_step in Hsteps. subst final.
    simpl in Hw. apply (f_equal length) in Hw. rewrite length_seqZ in Hw.
    simpl in Hw. lia.
  - intros Hnot.
    destruct (decide (max_concurrent self < 0)) as [Hneg|Hpos].
    + eexists. apply scrape_all_bad_semaphore. unfold Semaphore.
      by rewrite (proj2 (Z.ltb_lt _ _) Hneg).
    + destruct (decide (1 ≤ max_concurrent self)) as [Hone|Hzero];
        [by apply scrape_all_exists|].
      assert (max_concurrent self = 0) as Hc by lia.
      assert (max_pages self ≤ 0) as Hp by lia.
      eexists. apply (scrape_all_run _ _ _ 0%nat
        (dispatch 0 (logging INFO "Starting scrape..." self))).
      * unfold Semaphore. by rewrite Hc.
      * apply rtc_refl.
      * split; [|done]. simpl. by apply seqZ_nil.
Qed.

(** With [max_pages] at most 0 a run fetches nothing: it only logs, and
    leaves the two collections as they were. *)
Theorem scrape_all_without_pages (start_time end_time : Q) (self : scraper)
    (out : result () * scraper) :
  max_pages self ≤ 0 →
  0 ≤ max_concurrent self →
  scrape_all start_time end_time self out →
  out = summary (end_time - start_time)%Q (logging INFO "Starting scrape..." self)
  ∧ results out.2 = results self
  ∧ errors out.2 = errors self
  ∧ List.filter is_get (trace out.2) = List.filter is_get (trace self).
Proof.
  intros Hp Hc Hrun.
  destruct (scrape_all_linear _ _ _ _ Hc Hrun) as (dn & Hperm & ->).
  rewrite seqZ_nil in Hperm by done. apply Permutation_nil_r in Hperm as ->.
  simpl.
  destruct (summary_frame (end_time - start_time)%Q
              (logging INFO "Starting scrape..." self)) as (-> & -> & _).
  destruct (summary_quiet (end_time - start_time)%Q
              (logging INFO "Starting scrape..." self)) as [-> _].
  split_and!; try done. simpl. rewrite List.filter_app. simpl. apply app_nil_r.
Qed.

(** ** The widths of the columns *)

Lemma foldr_max_bound (l : list Z) :
  0 ≤ foldr Z.max 0 l ∧ Forall (λ x, x ≤ foldr Z.max 0 l) l.
Proof.
  induction l as [|x l [IH1 IH2]]; simpl; [split; [lia|constructor]|].
  split; [lia|]. constructor; [lia|].
  eapply Forall_impl; [exact IH2|]. simpl. lia.
Qed.

(** Every sheet gets eight widths, one per column, each from 2 to 50; a
    width below 50 leaves room for the header and for every cell of the
    column plus 2. *)
Theorem column_widths_bounds (df : list (product_record float)) :
  length (column_widths df) = 8%nat
  ∧ ∀ idx col w,
      columns !! idx = Some col → column_widths df !! idx = Some w →
      2 ≤ w ≤ 50
      ∧ (w < 50 →
         py_len col + 2 ≤ w
         ∧ Forall (λ row, py_len (astype_str row !!! idx) + 2 ≤ w) df).
Proof.
  split; [done|].
  intros idx col w Hcol Hw. unfold column_widths in Hw.
  rewrite list_lookup_imap, Hcol in Hw. simpl in Hw. injection Hw as <-.
  destruct (foldr_max_bound ((λ row, py_len (astype_str row !!! idx)) <$> df))
    as [Hnn Hall].
  set (m := foldr Z.max 0 ((λ row, py_len (astype_str row !!! idx)) <$> df)) in *.
  split; [lia|]. intros Hlt. split; [lia|].
  rewrite Forall_fmap in Hall. eapply Forall_impl; [exact Hall|].
  simpl. intros row Hrow. lia.
Qed.

(** ** The rating distribution of [print_summary] *)

Lemma count_value_keys r l x :
  x ∈ (count_value r l).*1 ↔ x = r ∨ x ∈ l.*1.
Proof.
  induction l as [|[k c] l IH]; simpl.
  - rewrite list_elem_of_singleton, elem_of_nil. tauto.
  - destruct (r <? k) eqn:Hlt; [|destruct (r =? k) eqn:Heq]; simpl.
    + rewrite !elem_of_cons. tauto.
    + apply Z.eqb_eq in Heq as ->. rewrite !elem_of_cons. tauto.
    + rewrite !elem_of_cons, IH. tauto.
Qed.

Lemma count_value_sorted r l :
  StronglySorted Z.lt l.*1 → StronglySorted Z.lt (count_value r l).*1.
Proof.
  induction l as [|[k c] l IH]; simpl; intros Hs.
  - by repeat constructor.
  - apply StronglySorted_inv in Hs as [Hs Hall].
    destruct (r <? k) eqn:Hlt; [|destruct (r =? k) eqn:Heq]; simpl.
    + apply Z.ltb_lt in Hlt. constructor; [by constructor|].
      constructor; [done|]. eapply Forall_impl; [exact Hall|]. simpl. lia.
    + by constructor.
    + apply Z.ltb_ge in Hlt. apply Z.eqb_neq in Heq.
      constructor; [by apply IH|].
      apply List.Forall_forall. intros x Hx.
      apply list_elem_of_In, count_value_keys in Hx as [->|Hx]; [lia|].
      rewrite List.Forall_forall in Hall. by apply Hall, list_elem_of_In.
Qed.

Lemma count_value_elem r l k c :
  StronglySorted Z.lt l.*1 →
  (k, c) ∈ count_value r l →
  (k ≠ r ∧ (k, c) ∈ l)
  ∨ (k = r ∧ ((¬ (r ∈ l.*1) ∧ c = 1) ∨ (∃ c', (r, c') ∈ l ∧ c = c' + 1))).
Proof.
  induction l as [|[k0 c0] l IH]; simpl; intros Hs Hin.
  - apply list_elem_of_singleton in Hin. injection Hin as -> ->.
    right. split; [done|]. left. split; [apply not_elem_of_nil|done].
  - apply StronglySorted_inv in Hs as [Hs Hall]. rewrite List.Forall_forall in Hall.
    assert (Hkeys : ∀ x y, (x, y) ∈ l → k0 < x).
    { intros x y Hxy. apply Hall, list_elem_of_In, list_elem_of_fmap.
      by exists (x, y). }
    destruct (r <? k0) eqn:Hlt; [|destruct (r =? k0) eqn:Heq].
    + apply Z.ltb_lt in Hlt. apply elem_of_cons in Hin as [Hin|Hin].
      * injection Hin as -> ->. right. split; [done|]. left. split; [|done].
        rewrite elem_of_cons. intros [->|Hr]; [lia|].
        apply list_elem_of_In, Hall in Hr. lia.
      * left. split; [|done]. apply elem_of_cons in Hin as [Hin|Hin].
        -- injection Hin as -> ->. lia.
        -- apply Hkeys in Hin. lia.
    + apply Z.eqb_eq in Heq as ->. apply elem_of_cons in Hin as [Hin|Hin].
      * injection Hin as -> ->. right. split; [done|]. right.
        exists c0. split; [apply elem_of_cons; by left|done].
      * left. split; [apply Hkeys in Hin; lia|apply elem_of_cons; by right].
    + apply Z.ltb_ge in Hlt. apply Z.eqb_neq in Heq.
      apply elem_of_cons in Hin as [Hin|Hin].
      * injection Hin as -> ->. left. split; [lia|apply elem_of_cons; by left].
      * destruct (IH Hs Hin) as [[Hne Hl]|[-> [[Hnot ->]|(c' & Hl & ->)]]].
        -- left. split; [done|apply elem_of_cons; by right].
        -- right. split; [done|]. left. split; [|done].
           rewrite elem_of_cons. intros [?|?]; [lia|done].
        -- right. split; [done|]. right. exists c'.
           split; [apply elem_of_cons; by right|done].
Qed.

Lemma count_value_total r l :
  foldr Z.add 0 (count_value r l).*2 = foldr Z.add 0 l.*2 + 1.
Proof.
  induction l as [|[k c] l IH]; csimpl; [done|].
  destruct (r <? k); [|destruct (r =? k)]; csimpl; lia.
Qed.

(** What [value_counts().sort_index()] gives for a column. *)
Lemma value_counts_spec (col : list Z) :
  StronglySorted Z.lt (value_counts_sort_index col).*1
  ∧ (∀ k c, (k, c) ∈ value_counts_sort_index col
            ↔ 0 < c ∧ c = Z.of_nat (length (List.filter (λ x, x =? k) col)))
  ∧ foldr Z.add 0 (value_counts_sort_index col).*2 = Z.of_nat (length col).
Proof.
  assert (Hinv : StronglySorted Z.lt (value_counts_sort_index col).*1
    ∧ (∀ k c, (k, c) ∈ value_counts_sort_index col →
              0 < c ∧ c = Z.of_nat (length (List.filter (λ x, x =? k) col)))
    ∧ (∀ k, k ∈ col → k ∈ (value_counts_sort_index col).*1)).
  { induction col as [|r col (Hs & Hcount & Hkey)]; simpl.
    - split; [constructor|]. split; [by intros k c ?%elem_of_nil|by intros k ?%elem_of_nil].
    - fold (value_counts_sort_index col).
      split; [by apply count_value_sorted|]. split.
      + intros k c Hin.
        destruct (count_value_elem _ _ _ _ Hs Hin)
          as [[Hne Hl]|[-> [[Hnot ->]|(c' & Hl & ->)]]].
        * rewrite (proj2 (Z.eqb_neq r k)) by done. by apply Hcount.
        * rewrite Z.eqb_refl. simpl. split; [lia|].
          assert (List.filter (λ x, x =? r) col = []) as ->; [|done].
          destruct (List.filter (λ x, x =? r) col) as [|x l'] eqn:Hf; [done|].
          assert (In x (List.filter (λ x, x =? r) col)) as Hx by (rewrite Hf; by left).
          apply List.filter_In in Hx as [Hx Hxr]. apply Z.eqb_eq in Hxr as ->.
          exfalso. apply Hnot, Hkey. by apply list_elem_of_In.
        * rewrite Z.eqb_refl. simpl. destruct (Hcount _ _ Hl) as [? ->]. lia.
      + intros k Hk. apply count_value_keys.
        apply elem_of_cons in Hk as [->|Hk]; [by left|right; by apply Hkey]. }
  destruct Hinv as (Hs & Hcount & Hkey). split; [done|]. split.
  - intros k c. split; [apply Hcount|]. intros [Hpos ->].
    assert (k ∈ col) as Hk.
    { destruct (List.filter (λ x, x =? k) col) as [|x l] eqn:Hf; [simpl in Hpos; lia|].
      assert (In x (List.filter (λ x, x =? k) col)) as Hx by (rewrite Hf; by left).
      apply List.filter_In in Hx as [Hx Hxk]. apply Z.eqb_eq in Hxk as ->.
      by apply list_elem_of_In. }
    apply Hkey, list_elem_of_fmap in Hk as ([k' c'] & -> & Hin). simpl.
    by destruct (Hcount _ _ Hin) as [_ <-].
  - clear. induction col as [|r col IH]; simpl; [done|].
    fold (value_counts_sort_index col). rewrite count_value_total, IH. lia.
Qed.

End Properties.

(** * Properties of [main] *)

Section Main_properties.
Context `{Env : Environment} {Pd : Pandas}.

Lemma summary_exit elapsed (self : scraper) :
  (summary elapsed self).1
  = if Qeq_bool elapsed 0 then Raise "float division by zero" else Ok ().
Proof. unfold summary. by destruct (Qeq_bool elapsed 0). Qed.

Lemma elapsed_zero (start_time end_time : Q) :
  Qeq_bool (end_time - start_time) 0 = true ↔ (end_time == start_time)%Q.
Proof.
  rewrite Qeq_bool_iff. split; intros H.
  - apply (Qplus_inj_r _ _ (- start_time)). rewrite Qplus_opp_r. exact H.
  - rewrite H. apply Qplus_opp_r.
Qed.


(** What [main] leaves, read off the run of [scrape_all] it starts. *)
Lemma main_inv (args : Namespace) (start_time end_time : Q) (proc : process) :
  main args start_time end_time proc →
  ∃ out,
    scrape_all start_time end_time
      (init "http://books.toscrape.com" (args_pages args) (args_concurrent args)) out
    ∧ proc = match out.1 with
             | Raise e => Process (Raise e) [] [] out.2
             | Ok _ =>
                 match (export_to_excel (args_output args) out.2).1.1 with
                 | Raise e =>
                     Process (Raise e) (print_summary out.2)
                       (export_to_excel (args_output args) out.2).1.2
                       (export_to_excel (args_output args) out.2).2
                 | Ok output_file =>
                     Process (Ok ())
                       (print_summary out.2
                        ++ ["Saved results to " +:+ str_of_optional output_file +:+ nl])
                       (export_to_excel (args_output args) out.2).1.2
                       (export_to_excel (args_output args) out.2).2
                 end
             end.
Proof.
  intros Hmain.
  inversion Hmain as [e self Hrun|e self Hrun Hex|output_file self Hrun Hex]; subst;
    eexists; (split; [exact Hrun|]); simpl; by rewrite ?Hex.
Qed.




(** What [main] does after a run that returns. *)
Lemma main_after_run (args : Namespace) (start_time end_time : Q) (proc : process) :
  0 ≤ args_concurrent args →
  ¬ (end_time == start_time)%Q →
  main args start_time end_time proc →
  ∃ dn self,
    dn ≡ₚ seqZ 1 (args_pages args)
    ∧ (Ok (), self)
      = summary (end_time - start_time)%Q
          (run_all dn (logging INFO "Starting scrape..."
             (init "http://books.toscrape.com" (args_pages args) (args_concurrent args))))
    ∧ proc = match (export_to_excel (args_output args) self).1.1 with
             | Raise e =>
                 Process (Raise e) (print_summary self)
                   (export_to_excel (args_output args) self).1.2
                   (export_to_excel (args_output args) self).2
             | Ok output_file =>
                 Process (Ok ())
                   (print_summary self
                    ++ ["Saved results to " +:+ str_of_optional output_file +:+ nl])
                   (export_to_excel (args_output args) self).1.2
                   (export_to_excel (args_output args) self).2
             end.
Proof.
  intros Hc Hne Hmain.
  destruct (main_inv _ _ _ _ Hmain) as ([r self] & Hrun & ->).
  set (self0 := init "http://books.toscrape.com" (args_pages args) (args_concurrent args))
    in *.
  assert (Hcap : 0 ≤ max_concurrent self0) by (unfold self0, init; simpl; lia).
  assert (Hq : Qeq_bool (end_time - start_time) 0 = false).
  { destruct (Qeq_bool (end_time - start_time) 0) eqn:Hq; [|done].
    by apply elapsed_zero in Hq. }
  destruct (scrape_all_linear _ _ _ _ Hcap Hrun) as (dn & Hperm & Hsum).
  assert (r = Ok ()) as ->.
  { apply (f_equal fst) in Hsum. by rewrite summary_exit, Hq in Hsum. }
  exists dn, self. split; [exact Hperm|]. split; [exact Hsum|done].
Qed.

Lemma main_exists (args : Namespace) (start_time end_time : Q) :
  1 ≤ args_concurrent args →
  ¬ (end_time == start_time)%Q →
  ∃ proc, main args start_time end_time proc.
Proof.
  intros Hc Hne.
  set (self0 := init "http://books.toscrape.com" (args_pages args) (args_concurrent args)).
  assert (Hcap : 0 ≤ max_concurrent self0) by (unfold self0, init; simpl; lia).
  destruct (scrape_all_exists start_time end_time self0) as [[r self] Hrun];
    [unfold self0, init; simpl; lia|].
  destruct (scrape_all_linear _ _ _ _ Hcap Hrun) as (dn & _ & Hsum).
  assert (r = Ok ()) as ->.
  { apply (f_equal fst) in Hsum. rewrite summary_exit in Hsum. simpl in Hsum.
    destruct (Qeq_bool (end_time - start_time) 0) eqn:Hq; [|done].
    by apply elapsed_zero in Hq. }
  destruct (export_to_excel (args_output args) self).1.1 as [output_file|e] eqn:Hex;
    eexists.
  - by eapply main_returned.
  - by eapply main_export_raised.
Qed.

Lemma flat_map_nil {A B} (f : A → list B) (l : list A) :
  (∀ a, a ∈ l → f a = []) → flat_map f l = [].
Proof.
  induction l as [|a l IH]; simpl; [done|]. intros Hf.
  rewrite (Hf a) by (apply elem_of_cons; by left). simpl.
  apply IH. intros b Hb. apply Hf, elem_of_cons. by right.
Qed.

(** When no page yields a row (all fetches fail, or the pages have no
    listing that parses), [main] returns having printed "No data collected"
    and "Saved results to None" and written no file at all: the error rows
    of the run stay in memory and are not reported. *)
Theorem main_without_products (args : Namespace) (start_time end_time : Q) :
  1 ≤ args_concurrent args →
  ¬ (end_time == start_time)%Q →
  (∀ p, 1 ≤ p ≤ args_pages args →
        page_rows (init "http://books.toscrape.com" (args_pages args)
                        (args_concurrent args)) p = []) →
  (∃ proc, main args start_time end_time proc)
  ∧ ∀ proc, main args start_time end_time proc →
      exit_status proc = Ok ()
      ∧ stdout proc = ["No data collected"; "Saved results to None" +:+ nl]
      ∧ files_written proc = []
      ∧ errors (scraper_left proc) ≡ₚ flat_map page_errors (seqZ 1 (args_pages args)).
Proof.
  intros Hc Hne Hrows. split; [by apply main_exists|].
  intros proc Hmain.
  destruct (main_after_run args _ _ proc ltac:(lia) Hne Hmain)
    as (dn & self & Hperm & Hsum & ->).
  set (self0 := init "http://books.toscrape.com" (args_pages args) (args_concurrent args))
    in *.
  assert (Hself : self = (summary (end_time - start_time)%Q
                            (run_all dn (logging INFO "Starting scrape..." self0))).2)
    by (by rewrite <- Hsum).
  destruct (summary_frame (end_time - start_time)%Q
              (run_all dn (logging INFO "Starting scrape..." self0)))
    as (Hres & Herr & _).
  rewrite <- Hself in Hres, Herr.
  rewrite run_all_results in Hres. rewrite run_all_errors in Herr. simpl in Hres, Herr.
  assert (Hnil : results self = []).
  { rewrite Hres. apply flat_map_nil. intros q Hq.
    rewrite (page_rows_base _ self0) by done. apply Hrows.
    rewrite Hperm, elem_of_seqZ in Hq. lia. }
  unfold print_summary, export_to_excel. rewrite Hnil. simpl.
  split_and!; try done. by rewrite Herr, Hperm.
Qed.


Lemma filter_fmap_length {A} (f : A → Z) (k : Z) (l : list A) :
  length (List.filter (λ x, x =? k) (f <$> l))
  = length (List.filter (λ a, f a =? k) l).
Proof.
  induction l as [|a l IH]; csimpl; [done|].
  destruct (f a =? k); simpl; by rewrite IH.
Qed.

(** [print_summary] prints "No data collected" alone exactly when there is no
    product row.  Otherwise it prints nine items, the last being the rating
    distribution: the ratings that occur, in ascending order, each with the
    number of rows that have it, so that the counts add up to the number of
    rows. *)
Theorem print_summary_counts_every_row (self : scraper) :
  (print_summary self = ["No data collected"] ↔ results self = [])
  ∧ (results self ≠ [] →
     ∃ counts,
       length (print_summary self) = 9%nat
       ∧ print_summary self !! 8%nat = Some (series_repr counts)
       ∧ StronglySorted Z.lt counts.*1
       ∧ (∀ k c, (k, c) ∈ counts
                 ↔ 0 < c
                   ∧ c = Z.of_nat (length (List.filter (λ row, product_rating row =? k)
                                             (results self))))
       ∧ foldr Z.add 0 counts.*2 = Z.of_nat (length (results self))).
Proof.
  unfold print_summary. split.
  - destruct (results self); [done|]. split; intros H; discriminate H.
  - intros Hne. destruct (results self) as [|row rest] eqn:Hr; [done|].
    exists (value_counts_sort_index (product_rating <$> row :: rest)).
    destruct (value_counts_spec (product_rating <$> row :: rest))
      as (Hsorted & Hcount & Htotal).
    split; [done|]. split; [done|]. split; [exact Hsorted|]. split.
    + intros k c. rewrite Hcount. by rewrite filter_fmap_length.
    + rewrite Htotal. by rewrite length_fmap.
Qed.

End Main_properties.

(** * The properties on the bookshop *)

Lemma three_attempts (P : Z → Prop) :
  P 0 → P 1 → P 2 → ∀ attempt, 0 ≤ attempt < 3 → P attempt.
Proof.
  intros H0 H1 H2 attempt Ha.
  assert (attempt = 0 ∨ attempt = 1 ∨ attempt = 2) as [->|[->| ->]] by lia; done.
Defined.

(** The claim C4 as worded, with the statuses 200..299 all ending the loop,
    fails on page 5: the first answer is 204 and a second request follows. *)
Lemma fetch_page_retries_on_204 :
  @session_get bookshop 5 0 = Response 204 ""
  ∧ @wire (@added bookshop bookshop_scraper (@fetch_page bookshop 5 bookshop_scraper).2)
    ≠ @schedule bookshop retried_non_2xx bookshop_scraper 5.
Proof. split; [reflexivity|]. vm_compute. discriminate. Qed.

Lemma fetch_page_exhausted_on_page_2 :
  (∀ attempt, 0 ≤ attempt < 3 → retried (@session_get bookshop 2 attempt) = true)
  ∧ (@fetch_page bookshop 2 bookshop_scraper).1 = None
  ∧ @outcome 2 (@fetch_page bookshop 2 bookshop_scraper).1 = Failure 2 Exhausted
  ∧ errors (@fetch_page bookshop 2 bookshop_scraper).2 = [ErrorRecord 2 "Failed to fetch"]
  ∧ results (@fetch_page bookshop 2 bookshop_scraper).2 = [].
Proof.
  assert (H : ∀ attempt, 0 ≤ attempt < 3 →
              retried (@session_get bookshop 2 attempt) = true)
    by (apply three_attempts; reflexivity).
  split; [exact H|].
  exact (@fetch_page_exhausted bookshop 2 bookshop_scraper H).
Defined.

(** Page 1 of the bookshop has three listings, one of them without a price:
    two rows are appended, one warning is logged, no error row is added. *)
Lemma parse_page_skips_the_torn_book :
  @fault_of (@select_products bookshop "shelf") = None
  ∧ length (List.filter (λ p, negb (@well_formed bookshop bookshop_scraper 1 p))
              (yielded (@select_products bookshop "shelf"))) = 1%nat
  ∧ ∃ rows,
      results (@parse_page bookshop "shelf" 1 bookshop_scraper) = (results bookshop_scraper ++ rows)%list
      ∧ length rows = 2%nat
      ∧ Forall (λ row, scraped_from_page row = 1) rows
      ∧ length (List.filter is_warning
                  (@added bookshop bookshop_scraper (@parse_page bookshop "shelf" 1 bookshop_scraper))) = 1%nat
      ∧ errors (@parse_page bookshop "shelf" 1 bookshop_scraper) = errors bookshop_scraper.
Proof.
  split; [reflexivity|]. split; [reflexivity|].
  exact (@parse_page_skips_malformed bookshop "shelf" 1 bookshop_scraper 1 eq_refl eq_refl).
Defined.

(** Page 4 of the bookshop faults after its first listing: the row of that
    listing and the error row of the fault are both kept. *)
Lemma parse_page_keeps_rows_before_fault :
  length (results (@parse_page bookshop "cut" 4 bookshop_scraper)) = 1%nat
  ∧ errors (@parse_page bookshop "cut" 4 bookshop_scraper)
    = [ErrorRecord 4 "Parse error: unreadable markup"].
Proof.
  destruct (@parse_page_only_appends bookshop "cut" 4 bookshop_scraper) as (Hr & He & _).
  rewrite Hr, He. split; reflexivity.
Defined.

(** Page 6 of the bookshop times out once and then sends an empty body. *)
Lemma empty_body_on_page_6 :
  (0 ≤ 1 < 3)
  ∧ (∀ k, 0 ≤ k < 1 → retried (@session_get bookshop 6 k) = true)
  ∧ @session_get bookshop 6 1 = Response 200 ""
  ∧ (@fetch_page bookshop 6 bookshop_scraper).1 = Some ""
  ∧ results (@scrape_page_wrapper bookshop 6 bookshop_scraper) = results bookshop_scraper
  ∧ errors (@scrape_page_wrapper bookshop 6 bookshop_scraper) = errors bookshop_scraper.
Proof.
  assert (Hk : ∀ k, 0 ≤ k < 1 → retried (@session_get bookshop 6 k) = true).
  { intros k Hk. assert (k = 0) as -> by lia. reflexivity. }
  split; [lia|]. split; [exact Hk|]. split; [reflexivity|].
  destruct (@empty_body_page_is_dropped bookshop 6 1 bookshop_scraper ltac:(lia) Hk eq_refl)
    as (Hret & _ & _ & Hres & Herr & _).
  auto.
Defined.

(** The claim C1 as worded fails on a shop whose page 1 has an empty body
    (the page is in neither set) and on one whose page 1 is cut short after
    a listing (the page is in both). *)
Lemma scrape_all_page_in_neither_or_both :
  (∃ out, @scrape_all empty_page_shop 0 1 (@init empty_page_shop "http://b.com" 1 1) out
          ∧ ¬ handed_to_parser 1 out.2 ∧ ¬ in_error_report 1 out.2
          ∧ ¬ one_outcome_per_page 1 out.2)
  ∧ (∃ out, @scrape_all cut_page_shop 0 1 (@init cut_page_shop "http://b.com" 1 1) out
            ∧ handed_to_parser 1 out.2 ∧ in_error_report 1 out.2
            ∧ ¬ one_outcome_per_page 1 out.2).
Proof.
  split.
  - destruct (@scrape_all_exists empty_page_shop 0 1
                (@init empty_page_shop "http://b.com" 1 1)) as [out Hrun];
      [by vm_compute|].
    exists out. split; [done|].
    assert (Hcap : 0 ≤ max_concurrent (@init empty_page_shop "http://b.com" 1 1))
      by (by vm_compute).
    destruct (@scrape_all_pages empty_page_shop _ _ _ _ Hcap Hrun 1) as (Hcalls & Herr & _).
    assert (Hparse : ¬ handed_to_parser 1 out.2).
    { unfold handed_to_parser. rewrite (Hcalls Parse_page). vm_compute. lia. }
    assert (Herrors : ¬ in_error_report 1 out.2).
    { unfold in_error_report. rewrite Herr. by vm_compute. }
    split_and!; [done..|].
    intros Hone. destruct (Hone 1 ltac:(lia)) as (_ & [[? _]|[_ ?]]); done.
  - destruct (@scrape_all_exists cut_page_shop 0 1
                (@init cut_page_shop "http://b.com" 1 1)) as [out Hrun];
      [by vm_compute|].
    exists out. split; [done|].
    assert (Hcap : 0 ≤ max_concurrent (@init cut_page_shop "http://b.com" 1 1))
      by (by vm_compute).
    destruct (@scrape_all_pages cut_page_shop _ _ _ _ Hcap Hrun 1) as (Hcalls & Herr & _).
    assert (Hparse : handed_to_parser 1 out.2).
    { unfold handed_to_parser. rewrite (Hcalls Parse_page). vm_compute. lia. }
    assert (Herrors : in_error_report 1 out.2).
    { unfold in_error_report. rewrite Herr. by vm_compute. }
    split_and!; [done..|].
    intros Hone. destruct (Hone 1 ltac:(lia)) as (_ & [[_ ?]|[? _]]); done.
Qed.

(** A run over the four first pages of the bookshop with two permits. *)
Lemma scrape_all_on_the_bookshop :
  1 ≤ 2
  ∧ ∃ out, @scrape_all bookshop 0 1 bookshop_scraper out
      ∧ (∀ p, 1 ≤ p ≤ 4 → calls Fetch_page p (trace out.2) = 1%nat)
      ∧ calls Fetch_page 5 (trace out.2) = 0%nat
      ∧ calls Parse_page 1 (trace out.2) = 1%nat
      ∧ errors_of 1 (errors out.2) = []
      ∧ calls Parse_page 2 (trace out.2) = 0%nat
      ∧ errors_of 2 (errors out.2) = [ErrorRecord 2 "Failed to fetch"]
      ∧ calls Parse_page 3 (trace out.2) = 0%nat
      ∧ errors_of 3 (errors out.2) = []
      ∧ calls Parse_page 4 (trace out.2) = 1%nat
      ∧ errors_of 4 (errors out.2) = [ErrorRecord 4 "Parse error: unreadable markup"].
Proof.
  split; [lia|].
  destruct (@scrape_all_fetches_each_page_once bookshop "http://b.com" 4 2 0 1 ltac:(lia))
    as [[out Hrun] Hall].
  exists out. specialize (Hall out Hrun). split; [exact Hrun|].
  split.
  { intros p Hp. destruct (Hall p) as [Hfetch _].
    rewrite Hfetch. by rewrite decide_True. }
  split; [by destruct (Hall 5) as [-> _]|].
  destruct (Hall 1) as [_ H1], (Hall 2) as [_ H2], (Hall 3) as [_ H3], (Hall 4) as [_ H4].
  specialize (H1 ltac:(lia)). specialize (H2 ltac:(lia)).
  specialize (H3 ltac:(lia)). specialize (H4 ltac:(lia)).
  vm_compute fetched in H1, H2, H3, H4. simpl in H1, H2, H3, H4.
  destruct H1 as [-> ->], H2 as [-> ->], H3 as [-> ->], H4 as [-> ->].
  repeat split.
Defined.

(** With two permits and four pages, two tasks hold the two permits. *)
Lemma two_tasks_in_flight :
  let s := @logging bookshop INFO "Starting scrape..." bookshop_scraper in
  let l := @Loop bookshop 0 [3; 4] [2; 1] [] s in
  @Semaphore (@max_concurrent bookshop bookshop_scraper) = Ok 2%nat
  ∧ rtc (@step bookshop) (@dispatch bookshop 2 s) l
  ∧ Z.of_nat (length (@in_flight bookshop l)) ≤ 2
  ∧ (@sem_value bookshop l + length (@in_flight bookshop l))%nat = 2%nat.
Proof.
  intros s l.
  assert (Hrun : rtc (@step bookshop) (@dispatch bookshop 2 s) l).
  { eapply rtc_l; [apply (@step_acquire bookshop 1 [] 1 [2; 3; 4] [] [] s)|].
    eapply rtc_l; [apply (@step_acquire bookshop 0 [] 2 [3; 4] [1] [] s)|].
    apply rtc_refl. }
  split; [reflexivity|]. split; [exact Hrun|].
  destruct (@in_flight_never_exceeds_cap bookshop bookshop_scraper 2 l eq_refl Hrun)
    as (Hcap & Hsum & _).
  split; [exact Hcap|exact Hsum].
Defined.

(** A run over no page whose two clock readings are equal. *)
Lemma zero_page_run_raises :
  let s := @init bookshop "http://books.toscrape.com" 0 5 in
  0 ≤ @max_concurrent bookshop s
  ∧ (5 == 5)%Q
  ∧ ∃ out, @scrape_all bookshop 5 5 s out ∧ out.1 = Raise "float division by zero".
Proof.
  intros s.
  assert (Hcap : 0 ≤ @max_concurrent bookshop s) by (by vm_compute).
  assert (Heq : (5 == 5)%Q) by reflexivity.
  split; [exact Hcap|]. split; [exact Heq|].
  destruct (@scrape_all_exists bookshop 5 5 s) as [out Hrun]; [by vm_compute|].
  exists out. split; [exact Hrun|].
  exact (@scrape_all_zero_elapsed bookshop 5 5 s out Hcap Heq Hrun).
Defined.

(** After the task of page 2 alone, there is an error row and no product
    row: nothing is exported, the error report included. *)
Lemma no_error_report_after_page_2 :
  let s := @scrape_page_wrapper bookshop 2 bookshop_scraper in
  errors s = [ErrorRecord 2 "Failed to fetch"]
  ∧ results s = []
  ∧ (@export_to_excel bookshop "products.xlsx" s).1 = (Ok None, []).
Proof.
  intros s. split; [reflexivity|]. split; [reflexivity|].
  by rewrite (@export_without_products_writes_nothing bookshop "products.xlsx" s eq_refl).
Defined.

(** The two books of page 1, exported: the five stars first. *)
Lemma export_of_page_1_sorted :
  let s := @scrape_page_wrapper bookshop 1 bookshop_scraper in
  (∀ x y, @float_le bookshop x y = true ∨ @float_le bookshop y x = true)
  ∧ results s ≠ []
  ∧ ∃ rows widths others,
      (@export_to_excel bookshop "products.xlsx" s).1.2
      = ProductsFile "products_20240301_120000.xlsx" "Products" rows widths :: others
      ∧ rows ≡ₚ results s
      ∧ ∀ i j a b, (i < j)%nat → rows !! i = Some a → rows !! j = Some b →
          product_rating b ≤ product_rating a
          ∧ (product_rating a = product_rating b →
             @float_le bookshop (product_price a) (product_price b) = true).
Proof.
  intros s.
  assert (Htotal : ∀ x y, @float_le bookshop x y = true ∨ @float_le bookshop y x = true).
  { intros x y. simpl. destruct (Z.le_ge_cases x y); [left|right]; by apply Z.leb_le. }
  assert (Htrans : ∀ x y z, @float_le bookshop x y = true →
                            @float_le bookshop y z = true →
                            @float_le bookshop x z = true).
  { intros x y z. simpl. rewrite !Z.leb_le. lia. }
  assert (Hrows : results s ≠ []) by (by vm_compute).
  split; [exact Htotal|]. split; [exact Hrows|].
  destruct (@export_rows_sorted bookshop Htotal Htrans "products.xlsx" s Hrows)
    as (rows & widths & Hperm & Hsorted & Hwritten & _).
  destruct (Hwritten eq_refl) as [others Hfile].
  exists rows, widths, others. split; [exact Hfile|]. split; [exact Hperm|exact Hsorted].
Defined.

(** The same rows exported under a name in a directory that is missing: the
    writer raises, and so does the export, with no file written. *)
Example export_into_a_missing_directory :
  (@export_to_excel bookshop "nodir/products.xlsx"
     (@scrape_page_wrapper bookshop 1 bookshop_scraper)).1
  = (Raise "Cannot save file into a non-existent directory: 'nodir'", []).
Proof. by vm_compute. Qed.

(** With two tasks in flight and no free permit, the loop has a next step. *)
Lemma two_tasks_in_flight_can_step :
  let s := @logging bookshop INFO "Starting scrape..." bookshop_scraper in
  let l := @Loop bookshop 0 [3; 4] [2; 1] [] s in
  (1 ≤ 2)%nat
  ∧ rtc (@step bookshop) (@dispatch bookshop 2 s) l
  ∧ (@idle bookshop l ∨ ∃ l', @step bookshop l l').
Proof.
  intros s l.
  assert (Hrun : rtc (@step bookshop) (@dispatch bookshop 2 s) l).
  { eapply rtc_l; [apply (@step_acquire bookshop 1 [] 1 [2; 3; 4] [] [] s)|].
    eapply rtc_l; [apply (@step_acquire bookshop 0 [] 2 [3; 4] [1] [] s)|].
    apply rtc_refl. }
  split; [lia|]. split; [exact Hrun|].
  exact (proj1 (@event_loop_makes_progress bookshop s 2 l ltac:(lia) Hrun)).
Defined.

(** A run of the bookshop in which page 1 completes last: the row of page 4
    comes before the rows of page 1, and the collections hold the same rows
    as in any other run. *)
Lemma page_1_completes_last :
  let s := @logging bookshop INFO "Starting scrape..." bookshop_scraper in
  let final := @Loop bookshop 2 [] [] [2; 3; 4; 1] (@run_all bookshop [2; 3; 4; 1] s) in
  0 ≤ @max_concurrent bookshop bookshop_scraper
  ∧ @scrape_all bookshop 0 1 bookshop_scraper (@summary bookshop (1 - 0)%Q (@loop_self bookshop final))
  ∧ scraped_from_page <$> results (@loop_self bookshop final) = [4; 1; 1]
  ∧ results (@summary bookshop (1 - 0)%Q (@loop_self bookshop final)).2
    ≡ₚ results bookshop_scraper ++ flat_map (@page_rows bookshop bookshop_scraper) (seqZ 1 4).
Proof.
  intros s final.
  assert (Hcap : 0 ≤ @max_concurrent bookshop bookshop_scraper) by (by vm_compute).
  assert (Hrun : @scrape_all bookshop 0 1 bookshop_scraper
                   (@summary bookshop (1 - 0)%Q (@loop_self bookshop final))).
  { apply (@scrape_all_run bookshop 0 1 bookshop_scraper 2 final); [reflexivity| |done].
    eapply rtc_l; [apply (@step_acquire bookshop 1 [] 1 [2; 3; 4] [] [] s)|].
    eapply rtc_l; [apply (@step_acquire bookshop 0 [] 2 [3; 4] [1] [] s)|].
    eapply rtc_l; [apply (@step_release bookshop 0 [3; 4] [] 2 [1] [] s)|].
    eapply rtc_l; [apply (@step_acquire bookshop 0 [] 3 [4] [1] [2])|].
    eapply rtc_l; [apply (@step_release bookshop 0 [4] [] 3 [1] [2])|].
    eapply rtc_l; [apply (@step_acquire bookshop 0 [] 4 [] [1] [2; 3])|].
    eapply rtc_l; [apply (@step_release bookshop 0 [] [] 4 [1] [2; 3])|].
    eapply rtc_l; [apply (@step_release bookshop 1 [] [] 1 [] [2; 3; 4])|].
    apply rtc_refl. }
  split; [exact Hcap|]. split; [exact Hrun|]. split; [reflexivity|].
  exact (proj1 (@scrape_all_collects_up_to_order bookshop 0 1 bookshop_scraper _ Hcap Hrun)).
Defined.


(** A book whose rating word the map does not know is kept, with rating 0;
    a book whose class has one word only is skipped. *)
Lemma unknown_rating_word_is_kept :
  @well_formed bookshop bookshop_scraper 1 (book "Odd" "£7" "Six") = true
  ∧ (∀ row, @parse_product bookshop bookshop_scraper 1 (book "Odd" "£7" "Six") = Ok row →
            product_rating row = 0)
  ∧ @well_formed bookshop bookshop_scraper 1
      (Listing (Ok "Bare") (Ok "£7") (Ok ["star-rating"]) (Ok "In stock")
               (Ok "cover.jpg") (Ok "index.html")) = false.
Proof.
  split; [reflexivity|]. split; [|reflexivity].
  intros row Hrow.
  destruct (proj2 (@listing_gives_a_row_exactly_when bookshop bookshop_scraper 1
                     (book "Odd" "£7" "Six")) row Hrow) as (_ & _ & Hzero & _).
  by apply (Hzero ["star-rating"; "Six"] "Six").
Defined.

(** A run of the bookshop sends between 4 and 12 requests. *)
Lemma bookshop_request_budget :
  0 ≤ 2
  ∧ ∃ out, @scrape_all bookshop 0 1 bookshop_scraper out
      ∧ 4 ≤ Z.of_nat (length (List.filter is_get (trace out.2))) ≤ 12
      ∧ 0 ≤ slept (trace out.2) ≤ 12.
Proof.
  split; [lia|].
  destruct (@scrape_all_exists bookshop 0 1 bookshop_scraper) as [out Hrun];
    [by vm_compute|].
  exists out. split; [exact Hrun|].
  exact (@scrape_all_request_budget bookshop "http://b.com" 4 2 0 1 out ltac:(lia) Hrun).
Defined.

Lemma bookshop_rows_invariant :
  0 ≤ 2
  ∧ ∃ out, @scrape_all bookshop 0 1 bookshop_scraper out
      ∧ Forall (λ row, 1 ≤ scraped_from_page row ≤ 4
                       ∧ 0 ≤ product_rating row ≤ 5
                       ∧ startswith "http://b.com/" (image_url row) = true
                       ∧ startswith "http://b.com/catalogue/" (product_url row) = true)
               (results out.2).
Proof.
  split; [lia|].
  destruct (@scrape_all_exists bookshop 0 1 bookshop_scraper) as [out Hrun];
    [by vm_compute|].
  exists out. split; [exact Hrun|].
  exact (@scrape_all_rows_invariant bookshop "http://b.com" 4 2 0 1 out ltac:(lia) Hrun).
Defined.

Lemma bookshop_errors_per_page :
  0 ≤ 2
  ∧ ∃ out, @scrape_all bookshop 0 1 bookshop_scraper out
      ∧ (∀ p, (length (errors_of p (errors out.2)) ≤ 1)%nat)
      ∧ Z.of_nat (length (errors out.2)) ≤ 4.
Proof.
  split; [lia|].
  destruct (@scrape_all_exists bookshop 0 1 bookshop_scraper) as [out Hrun];
    [by vm_compute|].
  exists out. split; [exact Hrun|].
  destruct (@scrape_all_errors_per_page bookshop "http://b.com" 4 2 0 1 out ltac:(lia) Hrun)
    as (Hone & Hlen & _).
  split; [exact Hone|exact Hlen].
Defined.

(** With [--concurrent 0] and one page the run never ends; with no page it
    does. *)
Lemma no_permit_one_page_never_ends :
  (¬ ∃ out, @scrape_all bookshop 0 1 (@init bookshop "http://b.com" 1 0) out)
  ∧ ∃ out, @scrape_all bookshop 0 1 (@init bookshop "http://b.com" 0 0) out.
Proof.
  split.
  - intros Hout.
    apply (proj1 (@scrape_all_ends_exactly_when bookshop 0 1
                    (@init bookshop "http://b.com" 1 0))) in Hout.
    apply Hout. split; [reflexivity|by vm_compute].
  - apply (proj2 (@scrape_all_ends_exactly_when bookshop 0 1
                    (@init bookshop "http://b.com" 0 0))).
    intros [_ Hp]. by vm_compute in Hp.
Defined.

Lemma no_page_run_only_logs :
  let s := @init bookshop "http://b.com" 0 0 in
  @max_pages bookshop s ≤ 0
  ∧ 0 ≤ @max_concurrent bookshop s
  ∧ ∃ out, @scrape_all bookshop 0 1 s out
      ∧ results out.2 = []
      ∧ errors out.2 = []
      ∧ List.filter is_get (trace out.2) = [].
Proof.
  intros s.
  assert (Hp : @max_pages bookshop s ≤ 0) by (by vm_compute).
  assert (Hc : 0 ≤ @max_concurrent bookshop s) by (by vm_compute).
  split; [exact Hp|]. split; [exact Hc|].
  destruct (proj2 (@scrape_all_ends_exactly_when bookshop 0 1 s)) as [out Hrun].
  { intros [_ H]. by vm_compute in H. }
  exists out. split; [exact Hrun|].
  destruct (@scrape_all_without_pages bookshop 0 1 s out Hp Hc Hrun)
    as (_ & Hr & He & Hg).
  split; [exact Hr|]. split; [exact He|exact Hg].
Defined.


(** Three pages of a shop that never answers: three error rows, no file. *)
Lemma main_on_a_closed_shop :
  let args := Build_Namespace 3 "products.xlsx" 2 in
  1 ≤ args_concurrent args
  ∧ ¬ (1 == 0)%Q
  ∧ ∃ proc, @main closed_shop closed_shop_pandas args 0 1 proc
      ∧ stdout proc = ["No data collected"; "Saved results to None" +:+ nl]
      ∧ files_written proc = []
      ∧ length (errors (scraper_left proc)) = 3%nat.
Proof.
  intros args.
  assert (Hc : 1 ≤ args_concurrent args) by (simpl; lia).
  assert (Hne : ¬ (1 == 0)%Q) by (by vm_compute).
  split; [exact Hc|]. split; [exact Hne|].
  destruct (@main_without_products closed_shop closed_shop_pandas args 0 1 Hc Hne)
    as [[proc Hmain] Hall].
  { intros p _. reflexivity. }
  exists proc. split; [exact Hmain|].
  destruct (Hall proc Hmain) as (_ & Hout & Hfiles & Herr).
  split; [exact Hout|]. split; [exact Hfiles|].
  by rewrite Herr.
Defined.

